(** * DataCollection: ping composition and routing of the core add-on

    A shallow embedding of [core-addon/DataCollection.js] and of the
    fragment of JavaScript its methods rely on, followed by the
    properties of the class. *)

From stdpp Require Import gmap strings list fin_maps.

Local Set Warnings "-register-all".
Local Set Default Proof Using "Type".
Local Open Scope string_scope.

(** ** JavaScript values

    The values that reach the class are JSON-serialisable data, plus
    [undefined] for an omitted argument.  Objects are finite maps from
    own property names to values, their prototype being
    [Object.prototype].  A number is identified with its canonical
    rendering ([Number::toString]: ["1"], ["0.5"], ["NaN"], ...), which
    determines it up to the sign of zero; nothing in the class tells the
    two zeros apart. *)

Inductive value : Type :=
| VUndefined
| VNull
| VBool (b : bool)
| VNum (repr : string)
| VStr (s : string)
| VArr (elements : list value)
| VObj (properties : gmap string value).

(** [typeof v] *)
Definition typeof (v : value) : string :=
  match v with
  | VUndefined => "undefined"
  | VBool _ => "boolean"
  | VNum _ => "number"
  | VStr _ => "string"
  | VNull | VArr _ | VObj _ => "object"
  end.

(** [ToBoolean v]: the falsy values are [undefined], [null], [false],
    the zeros, [NaN] and the empty string. *)
Definition truthy (v : value) : bool :=
  match v with
  | VUndefined | VNull => false
  | VBool b => b
  | VNum repr => negb (bool_decide (repr = "0") || bool_decide (repr = "NaN"))
  | VStr s => negb (bool_decide (s = ""))
  | VArr _ | VObj _ => true
  end.

(** [v === undefined] *)
Definition is_undefined (v : value) : bool :=
  match v with VUndefined => true | _ => false end.

(** [v === lit] for a string literal [lit]: strict equality holds for
    the very same string and for nothing else. *)
Definition is_string (lit : string) (v : value) : bool :=
  match v with VStr s => bool_decide (s = lit) | _ => false end.

(** [ToString v], [None] standing for the [TypeError] of a failed
    conversion.  An array is rendered by [join], which writes [null] and
    [undefined] elements as the empty string.  A plain object is rendered
    by the inherited [Object.prototype.toString], unless an own property
    shadows it: no value of this universe is callable, so the conversion
    then fails. *)
Fixpoint ToString (v : value) : option string :=
  match v with
  | VUndefined => Some "undefined"
  | VNull => Some "null"
  | VBool b => Some (if b then "true" else "false")
  | VNum repr => Some repr
  | VStr s => Some s
  | VArr elements =>
      (fix join (l : list value) : option string :=
         match l with
         | [] => Some ""
         | e :: rest =>
             s ← match e with
                 | VUndefined | VNull => Some ""
                 | _ => ToString e
                 end;
             match rest with
             | [] => Some s
             | _ => r ← join rest; Some (s ++ "," ++ r)
             end
         end) elements
  | VObj properties =>
      if bool_decide (is_Some (properties !! "toString")) then None
      else Some "[object Object]"
  end.

(** [ToPropertyKey v]: there are no symbols here, so this is [ToString]. *)
Definition ToPropertyKey (v : value) : option string := ToString v.

(** [k in v], [None] standing for the [TypeError] raised when the right
    operand is not an object.  The operator also sees inherited
    properties; the names the class tests (the keys of [FIELD_MAPPING]
    and ["race"]) are defined neither on [Object.prototype] nor on
    [Array.prototype] and are no array index, so for them the answer is
    own-property membership. *)
Definition has_property (k : string) (v : value) : option bool :=
  match v with
  | VObj properties => Some (bool_decide (is_Some (properties !! k)))
  | VArr _ => Some false
  | _ => None
  end.

(** [v[k]] for an object [v] and a name [k] as above. *)
Definition get (v : value) (k : string) : value :=
  match v with
  | VObj properties => default VUndefined (properties !! k)
  | _ => VUndefined
  end.

(** The own properties of the object [a] after the assignment
    [a[k] = v].  Every property of [Object.prototype] is a writable data
    property, which the assignment shadows by an own property, except
    the accessor [__proto__]: unless [a] has an own property of that
    name, the assignment runs the inherited setter, which defines
    nothing on [a] (for a [v] that is neither an object nor [null] it
    does nothing at all). *)
Definition set_property (a : gmap string value) (k : string) (v : value)
  : gmap string value :=
  if bool_decide (k = "__proto__") && negb (bool_decide (is_Some (a !! k)))
  then a
  else <[k := v]> a.

(** A left-to-right loop over a list whose body may fail: the [for ... of]
    loop and [Array.prototype.reduce] with an initial value. *)
Fixpoint reduce {A B : Type} (f : A → B → option A) (l : list B) (init : A)
  : option A :=
  match l with
  | [] => Some init
  | b :: rest => a ← f init b; reduce f rest a
  end.

(** The object literal [{ k1: v1, ..., kn: vn }] with distinct plain
    names. *)
Definition object (entries : list (string * value)) : value :=
  VObj (list_to_map entries).

(** [o.k], when [o] is an object with the own property [k]. *)
Definition field (k : string) (o : value) : option value :=
  match o with VObj properties => properties !! k | _ => None end.

(** ** Exceptions, the host and the console *)

(** The exceptions of the class.  [InvalidRallyId] is the [Error] that
    the guard of [sendPing] raises; its message interpolates the
    offending id, kept here as a value.  [StudyIdRequired] is the
    [Error] of [sendDeletionPing].  [TypeError] is what the runtime
    raises: on an ill-typed survey, and in the guard of [sendPing] when
    the id cannot be rendered into the message of the [Error]. *)
Inductive exn : Type :=
| InvalidRallyId (rallyId : value)
| StudyIdRequired
| TypeError.

(** The two errors the class raises itself on a missing or malformed
    identifier. *)
Definition is_validation_error (e : exn) : bool :=
  match e with
  | InvalidRallyId _ | StudyIdRequired => true
  | TypeError => false
  end.

Inductive completion (A : Type) : Type :=
| Normal (a : A)
| Throw (e : exn).
Arguments Normal {A} a.
Arguments Throw {A} e.

(** One invocation of [browser.firefoxPrivilegedApi.submitEncryptedPing]. *)
Record call : Type := Call {
  ping_type : string;
  ping_payload : value;
  ping_options : value
}.

(** How the promise returned by the host settles.  The primitive is
    declared [async] in [FirefoxPrivilegedApi.schema.json]: a call
    returns a promise, which is fulfilled or rejected; a rejection
    carries its reason as the [catch] handler renders it. *)
Inductive settlement : Type :=
| Fulfilled
| Rejected (error : string).

(** The lines written to the console: [console.debug] echoes the options
    and the payload, [console.error] the reason of a failure. *)
Inductive console_line : Type :=
| debug_line (options payload : value)
| error_line (error : string).

(** What a method can change: the calls made to the host and the console,
    both in chronological order. *)
Record world : Type := World {
  calls : list call;
  console : list console_line
}.

Definition js (A : Type) : Type := world → completion A * world.

#[export] Instance js_ret : MRet js := λ A a w, (Normal a, w).

#[export] Instance js_bind : MBind js := λ A B f m w,
  match m w with
  | (Normal a, w') => f a w'
  | (Throw e, w') => (Throw e, w')
  end.

Definition throw {A : Type} (e : exn) : js A := λ w, (Throw e, w).

(** A pure computation that may raise a [TypeError]. *)
Definition or_type_error {A : Type} (o : option A) : js A :=
  match o with Some a => mret a | None => throw TypeError end.

Definition console_debug (options payload : value) : js unit := λ w,
  (Normal (), World (calls w) (console w ++ [debug_line options payload])).

Definition console_error (error : string) : js unit := λ w,
  (Normal (), World (calls w) (console w ++ [error_line error])).

(** ** The class *)

Definition CORE_ENCRYPTION_KEY_ID : string := "core".

Definition CORE_ENCRYPTION_JWK : value :=
  object [ ("crv", VStr "P-256");
           ("kid", VStr "core");
           ("kty", VStr "EC");
           ("x", VStr "muvXFcGjbk2uZCCa8ycoH8hVxeDCGPQ9Ed2-QHlTtuc");
           ("y", VStr "xrLUev8_yUrSFAlabnHInvU4JKc6Ew3YXaaoDloQxw8") ].

(** The key of the [else] branch of [_sendEmptyPing]. *)
Definition DISCARDED_JWK : value :=
  object [ ("crv", VStr "P-256");
           ("kty", VStr "EC");
           ("x", VStr "XLkI3NaY3-AF2nRMspC63BT1u0Y3moXYSfss7VuQ0mk");
           ("y", VStr "SB0KnIW-pqk85OIEYZenoNkEyOOp5GeWQhS1KeRtEUE") ].

Definition FIELD_MAPPING : list (string * string) :=
  [ ("age", "age");
    ("gender", "gender");
    ("hispanicLatinoSpanishOrigin", "origin");
    ("school", "education");
    ("income", "income");
    ("zipCode", "zipCode") ].

(** The callback of the [reduce] over [data.race]:
    [(a, b) => ((a[b] = true), a)]. *)
Definition mark_race (a : gmap string value) (b : value)
  : option (gmap string value) :=
  k ← ToPropertyKey b; Some (set_property a k (VBool true)).

(** The body of the loop over [Object.entries(FIELD_MAPPING)]. *)
Definition map_field (data : value) (processed : gmap string value)
    (entry : string * string) : option (gmap string value) :=
  let '(originalField, newName) := entry in
  present ← has_property originalField data;
  if present : bool then
    k ← ToPropertyKey (get data originalField);
    Some (set_property processed newName (VObj {[ k := VBool true ]}))
  else Some processed.

(** The value of [processed] when [sendDemographicSurveyPing] reaches its
    call of [sendPing]; [None] when a [TypeError] is raised on the way. *)
Definition processed (data : value) : option (gmap string value) :=
  mapped ← reduce (map_field data) FIELD_MAPPING ∅;
  present ← has_property "race" data;
  if present : bool then
    match get data "race" with
    | VArr race =>
        races ← reduce mark_race race ∅;
        Some (set_property mapped "races" (VObj races))
    | _ => None
    end
  else Some mapped.

Module DataCollection.
Section Host.

(** The host primitive [browser.firefoxPrivilegedApi.submitEncryptedPing]:
    how the promise it returns settles, for given arguments. *)
Variable submitEncryptedPing : string → value → value → settlement.

(** [await browser.firefoxPrivilegedApi.submitEncryptedPing(...)], with its
    outcome handed to the [then]/[catch] handlers. *)
Definition await_submitEncryptedPing (type : string) (payload options : value)
  : js settlement := λ w,
  (Normal (submitEncryptedPing type payload options),
   World (calls w ++ [Call type payload options]) (console w)).

Definition sendPing (rallyId payloadType payload namespace keyId key : value)
  : js unit :=
  if negb (truthy rallyId) || negb (bool_decide (typeof rallyId = "string"))
  then
    match ToString rallyId with
    | Some _ => throw (InvalidRallyId rallyId)
    | None => throw TypeError
    end
  else
    let options :=
      object [ ("studyName", namespace);
               ("addPioneerId", VBool true);
               ("overridePioneerId", rallyId);
               ("encryptionKeyId", keyId);
               ("publicKey", key);
               ("schemaName", payloadType);
               ("schemaVersion", VNum "1");
               ("schemaNamespace", namespace) ] in
    outcome ← await_submitEncryptedPing "pioneer-study" payload options;
    match outcome with
    | Fulfilled => console_debug options payload
    | Rejected error => console_error error
    end.

Definition _sendEmptyPing (rallyId payloadType namespace : value) : js unit :=
  let '(keyId, publicKey) :=
    if is_string "pioneer-core" namespace
    then (VStr CORE_ENCRYPTION_KEY_ID, CORE_ENCRYPTION_JWK)
    else (VStr "discarded", DISCARDED_JWK) in
  sendPing rallyId payloadType (object []) namespace keyId publicKey.

Definition sendEnrollmentPing (rallyId studyAddonId : value) : js unit :=
  if negb (is_undefined studyAddonId)
  then _sendEmptyPing rallyId (VStr "pioneer-enrollment") studyAddonId
  else _sendEmptyPing rallyId (VStr "pioneer-enrollment") (VStr "pioneer-core").

Definition sendDeletionPing (rallyId studyAddonId : value) : js unit :=
  if is_undefined studyAddonId
  then throw StudyIdRequired
  else _sendEmptyPing rallyId (VStr "deletion-request") studyAddonId.

Definition sendDemographicSurveyPing (rallyId data : value) : js unit :=
  payload ← or_type_error (processed data);
  sendPing rallyId (VStr "demographic-survey") (VObj payload)
    (VStr "pioneer-core") (VStr CORE_ENCRYPTION_KEY_ID) CORE_ENCRYPTION_JWK.

End Host.
End DataCollection.

Import DataCollection.

(** The operations of the class, and what each of them runs. *)
Inductive request : Type :=
| Ping (rallyId payloadType payload namespace keyId key : value)
| EmptyPing (rallyId payloadType namespace : value)
| EnrollmentPing (rallyId studyAddonId : value)
| DeletionPing (rallyId studyAddonId : value)
| DemographicSurveyPing (rallyId data : value).

Definition perform
    (submitEncryptedPing : string → value → value → settlement)
    (r : request) : js unit :=
  match r with
  | Ping rallyId payloadType payload namespace keyId key =>
      sendPing submitEncryptedPing rallyId payloadType payload namespace
        keyId key
  | EmptyPing rallyId payloadType namespace =>
      _sendEmptyPing submitEncryptedPing rallyId payloadType namespace
  | EnrollmentPing rallyId studyAddonId =>
      sendEnrollmentPing submitEncryptedPing rallyId studyAddonId
  | DeletionPing rallyId studyAddonId =>
      sendDeletionPing submitEncryptedPing rallyId studyAddonId
  | DemographicSurveyPing rallyId data =>
      sendDemographicSurveyPing submitEncryptedPing rallyId data
  end.

(** ** Vocabulary of the properties *)

(** The world in which nothing has happened yet. *)
Definition quiet : world := World [] [].

(** What the handlers of [sendPing] write to the console. *)
Definition report (outcome : settlement) (options payload : value)
  : console_line :=
  match outcome with
  | Fulfilled => debug_line options payload
  | Rejected error => error_line error
  end.

(** The ids that pass the guard of [sendPing]. *)
Definition valid_id (rallyId : value) : bool :=
  truthy rallyId && bool_decide (typeof rallyId = "string").

(** What the guard of [sendPing] raises for an id that it refuses: the
    [Error] built from the rendered id or, when the id cannot be
    rendered, the [TypeError] of the template literal. *)
Definition refusal (rallyId : value) : exn :=
  match ToString rallyId with
  | Some _ => InvalidRallyId rallyId
  | None => TypeError
  end.

(** The payload has the name [new] exactly when the answers have the
    name [orig], and its value is then the object whose only key is the
    answer, mapped to [true]. *)
Definition renamed (answers payload : gmap string value)
    (orig new : string) : Prop :=
  match answers !! orig with
  | Some answer =>
      ∃ key, ToPropertyKey answer = Some key
             ∧ payload !! new = Some (VObj {[ key := VBool true ]})
  | None => payload !! new = None
  end.

(** Well-typed survey data, as the survey form submits it: an object
    whose mapped answers, when present, are scalars, and whose ["race"],
    when present, is an array of category strings.  Other properties
    are unconstrained. *)
Definition scalar (v : value) : bool :=
  match v with VBool _ | VNum _ | VStr _ => true | _ => false end.

Definition category (v : value) : bool :=
  match v with VStr _ => true | _ => false end.

Definition demographic_answer (data : value) : bool :=
  match data with
  | VObj answers =>
      forallb (λ entry : string * string,
                 match answers !! entry.1 with
                 | Some v => scalar v
                 | None => true
                 end) FIELD_MAPPING
      && match answers !! "race" with
         | Some (VArr race) => forallb category race
         | Some _ => false
         | None => true
         end
  | _ => false
  end.

(** The map that the [reduce] over [data.race] builds from category
    strings. *)
Definition races_of (categories : list string) : gmap string value :=
  foldl (λ a c, set_property a c (VBool true)) ∅ categories.

(** The options of a call name one namespace, as [studyName] and as
    [schemaNamespace]. *)
Definition one_namespace (c : call) : Prop :=
  ∃ namespace,
    field "studyName" (ping_options c) = Some namespace
    ∧ field "schemaNamespace" (ping_options c) = Some namespace.

(** Two hosts to run the class against: one whose promise is always
    fulfilled, one whose promise is always rejected. *)
Definition accepting : string → value → value → settlement :=
  λ _ _ _, Fulfilled.

Definition rejecting : string → value → value → settlement :=
  λ _ _ _, Rejected "NetworkError".

(** What a mapped answer becomes: [{ [answer]: true }]. *)
Definition flattened (answer : value) : option value :=
  key ← ToPropertyKey answer; Some (VObj {[ key := VBool true ]}).

(** The requests for which the class chooses the key itself: all but
    the generic ping, whose caller supplies it. *)
Definition selects_key (r : request) : bool :=
  match r with
  | Ping _ _ _ _ _ _ => false
  | _ => true
  end.

(** The key of a call is the one that its namespace selects. *)
Definition keyed_by_namespace (c : call) : Prop :=
  ∃ namespace,
    field "schemaNamespace" (ping_options c) = Some namespace
    ∧ field "encryptionKeyId" (ping_options c)
      = Some (VStr (if is_string "pioneer-core" namespace
                    then "core" else "discarded"))
    ∧ field "publicKey" (ping_options c)
      = Some (if is_string "pioneer-core" namespace
              then CORE_ENCRYPTION_JWK else DISCARDED_JWK).

(** A call carries the marks that [sendPing] puts on every ping: the
    outer type, a non-empty string as the id to use, the request to add
    it, and the schema version 1. *)
Definition stamped (c : call) : Prop :=
  ping_type c = "pioneer-study"
  ∧ ∃ p : string,
      p ≠ ""
      ∧ field "overridePioneerId" (ping_options c) = Some (VStr p)
      ∧ field "addPioneerId" (ping_options c) = Some (VBool true)
      ∧ field "schemaVersion" (ping_options c) = Some (VNum "1").

(** The value can be used as a property key. *)
Definition has_key (v : value) : bool :=
  match ToPropertyKey v with Some _ => true | None => false end.

(** Survey data that the shaping code gets through: an array, or an
    object whose mapped answers, when present, can be used as keys and
    whose ["race"], when present, is an array of values that can. *)
Definition shapable (data : value) : bool :=
  match data with
  | VObj answers =>
      forallb (λ entry : string * string,
                 match answers !! entry.1 with
                 | Some v => has_key v
                 | None => true
                 end) FIELD_MAPPING
      && match answers !! "race" with
         | Some (VArr race) => forallb has_key race
         | Some _ => false
         | None => true
         end
  | VArr _ => true
  | _ => false
  end.

(** An object all of whose values are [true]. *)
Definition flags (v : value) : Prop :=
  ∃ m : gmap string value,
    v = VObj m ∧ ∀ k v', m !! k = Some v' → v' = VBool true.

(** The names that the survey payload can have. *)
Definition payload_names : list string := FIELD_MAPPING.*2 ++ ["races"].

(** The names that the shaping code reads in the survey data. *)
Definition survey_names : list string := FIELD_MAPPING.*1 ++ ["race"].

(** The properties of the [options] parameter of [submitEncryptedPing]
    and their types, as [FirefoxPrivilegedApi.schema.json] declares
    them. *)
Definition options_schema : list (string * string) :=
  [ ("studyName", "string");
    ("addPioneerId", "boolean");
    ("overridePioneerId", "string");
    ("encryptionKeyId", "string");
    ("publicKey", "object");
    ("schemaName", "string");
    ("schemaNamespace", "string");
    ("schemaVersion", "number") ].

(** A value of a declared type; neither [null] nor an array passes for
    an ["object"]. *)
Definition of_type (type : string) (v : value) : bool :=
  bool_decide (typeof v = type)
  && match v with VNull | VArr _ => false | _ => true end.

(** The options have every declared property, with a value of the
    declared type, and no other property. *)
Definition conforms (options : value) : bool :=
  match options with
  | VObj properties =>
      forallb (λ declared : string * string,
                 match properties !! declared.1 with
                 | Some v => of_type declared.2 v
                 | None => false
                 end) options_schema
      && bool_decide (dom properties ⊆ list_to_set options_schema.*1)
  | _ => false
  end.

(** The arguments that end up in the options have the types that the
    documentation of the methods gives them: strings for the kind label,
    the namespace, the study id (when there is one) and the key id, an
    object for the key. *)
Definition typed_request (r : request) : bool :=
  match r with
  | Ping _ payloadType _ namespace keyId key =>
      of_type "string" payloadType && of_type "string" namespace
      && of_type "string" keyId && of_type "object" key
  | EmptyPing _ payloadType namespace =>
      of_type "string" payloadType && of_type "string" namespace
  | EnrollmentPing _ studyAddonId | DeletionPing _ studyAddonId =>
      is_undefined studyAddonId || of_type "string" studyAddonId
  | DemographicSurveyPing _ _ => true
  end.

(** The goal is about one run of [sendPing]: either its guard raises, or
    the run is the witness asked for. *)
Ltac through_the_guard Hguard :=
  match goal with
  | |- context [DataCollection.sendPing _ ?a ?b ?c ?d ?e ?f _] =>
      destruct (Hguard a b c d e f) as [? | ?];
      [ by left
      | right; exists a, b, c, d, e, f;
        repeat match goal with H : is_string _ _ = _ |- _ => rewrite H end;
        by repeat split ]
  end.

(** ** Guards and comparisons *)

Lemma valid_id_string (p : string) : p ≠ "" → valid_id (VStr p) = true.
Proof.
  intros Hp. unfold valid_id. simpl.
  rewrite bool_decide_eq_false_2 by done. reflexivity.
Qed.

Lemma valid_id_inv (rallyId : value) :
  valid_id rallyId = true → ∃ p, rallyId = VStr p ∧ p ≠ "".
Proof.
  unfold valid_id. intros [Ht Hs%bool_decide_eq_true]%andb_true_iff.
  destruct rallyId; try discriminate Hs.
  exists s. split; [done|]. intros ->. discriminate Ht.
Qed.

Lemma is_string_true (lit : string) (v : value) :
  is_string lit v = true ↔ v = VStr lit.
Proof.
  destruct v; simpl; try (split; [discriminate | congruence]).
  rewrite bool_decide_eq_true. split; congruence.
Qed.

Lemma is_string_false (lit : string) (v : value) :
  is_string lit v = false ↔ v ≠ VStr lit.
Proof.
  rewrite <- is_string_true. destruct (is_string lit v); split; congruence.
Qed.

Lemma is_undefined_true (v : value) : is_undefined v = true ↔ v = VUndefined.
Proof. destruct v; simpl; split; congruence. Qed.

Lemma is_undefined_false (v : value) : is_undefined v = false ↔ v ≠ VUndefined.
Proof. destruct v; simpl; split; congruence. Qed.

(** ** The demographic survey *)

Lemma set_property_plain (a : gmap string value) (k : string) (v : value) :
  k ≠ "__proto__" → set_property a k v = <[k := v]> a.
Proof.
  intros Hk. unfold set_property.
  by rewrite bool_decide_eq_false_2.
Qed.

Lemma set_property_proto (a : gmap string value) (v : value) :
  a !! "__proto__" = None → set_property a "__proto__" v = a.
Proof.
  intros Ha. unfold set_property. rewrite Ha.
  rewrite (bool_decide_eq_false_2 (is_Some None)) by (by intros [? ?]).
  reflexivity.
Qed.

(** The [reduce] over category strings never fails. *)
Lemma reduce_mark_race (categories : list string) (a : gmap string value) :
  reduce mark_race (VStr <$> categories) a
  = Some (foldl (λ a c, set_property a c (VBool true)) a categories).
Proof.
  revert a. induction categories as [|c rest IH]; intros a; [done|].
  simpl. apply IH.
Qed.

Lemma foldl_set_property_lookup (categories : list string)
    (a : gmap string value) (k : string) :
  a !! "__proto__" = None →
  foldl (λ a c, set_property a c (VBool true)) a categories !! k
  = if bool_decide (k ∈ categories ∧ k ≠ "__proto__")
    then Some (VBool true) else a !! k.
Proof.
  revert a. induction categories as [|c rest IH]; intros a Ha; cbn [foldl].
  - case_bool_decide as H; [|done]. destruct H as [H _]. by inversion H.
  - destruct (decide (c = "__proto__")) as [->|Hc].
    + rewrite set_property_proto by done. rewrite IH by done.
      rewrite (bool_decide_ext (k ∈ "__proto__" :: rest ∧ k ≠ "__proto__")
                 (k ∈ rest ∧ k ≠ "__proto__")); [done|].
      rewrite elem_of_cons. tauto.
    + rewrite set_property_plain by done.
      rewrite IH by (by rewrite lookup_insert_ne).
      destruct (decide (k = c)) as [->|Hk].
      * rewrite lookup_insert_eq.
        rewrite (bool_decide_eq_true_2 (c ∈ c :: rest ∧ _)); [|set_solver].
        by case_bool_decide.
      * rewrite lookup_insert_ne by done.
        rewrite (bool_decide_ext (k ∈ c :: rest ∧ k ≠ "__proto__")
                   (k ∈ rest ∧ k ≠ "__proto__")); [done|].
        rewrite elem_of_cons. tauto.
Qed.

(** Every selected category other than ["__proto__"] is a key of the
    races map, with the value [true], and there is no other key. *)
Lemma races_of_lookup (categories : list string) (k : string) :
  races_of categories !! k
  = if bool_decide (k ∈ categories ∧ k ≠ "__proto__")
    then Some (VBool true) else None.
Proof.
  unfold races_of. rewrite foldl_set_property_lookup by done.
  by rewrite lookup_empty.
Qed.

(** Race shaping looks at the set of the selected categories only:
    neither their order nor their multiplicities matter. *)
Lemma races_of_same_set (l1 l2 : list string) :
  (∀ c, c ∈ l1 ↔ c ∈ l2) → races_of l1 = races_of l2.
Proof.
  intros Hset. apply map_eq. intros k. rewrite !races_of_lookup.
  rewrite (bool_decide_ext (k ∈ l1 ∧ k ≠ "__proto__")
             (k ∈ l2 ∧ k ≠ "__proto__")); [done|].
  by rewrite Hset.
Qed.

(** Race shaping is independent of order and multiplicity: two lists
    with the same set of category strings are reduced to the same map,
    in which every selected category other than ["__proto__"] is mapped
    to [true] and no other key appears. *)
Theorem race_shaping_same_set (l1 l2 : list string) :
  (∀ c, c ∈ l1 ↔ c ∈ l2) →
  ∃ races,
    reduce mark_race (VStr <$> l1) ∅ = Some races
    ∧ reduce mark_race (VStr <$> l2) ∅ = Some races
    ∧ (∀ c, c ∈ l1 → c ≠ "__proto__" → races !! c = Some (VBool true))
    ∧ (∀ k, k ∉ l1 → races !! k = None).
Proof.
  intros Hset. exists (races_of l1). rewrite !reduce_mark_race.
  fold (races_of l1) (races_of l2). split; [done|].
  split; [by rewrite (races_of_same_set l1 l2)|]. split.
  - intros c Hc Hp. rewrite races_of_lookup.
    by rewrite bool_decide_eq_true_2.
  - intros k Hk. rewrite races_of_lookup.
    rewrite bool_decide_eq_false_2; [done|]. by intros [? _].
Qed.

(** A scalar always has a property key. *)
Lemma scalar_key (v : value) : scalar v = true → is_Some (ToPropertyKey v).
Proof. destruct v; try discriminate; intros _; simpl; eauto. Qed.

(** One round of the loop over [FIELD_MAPPING], in terms of lookups. *)
Lemma map_field_lookup (answers processed0 : gmap string value)
    (originalField newName : string) :
  newName ≠ "__proto__" →
  (∀ v, answers !! originalField = Some v → scalar v = true) →
  ∃ processed1,
    map_field (VObj answers) processed0 (originalField, newName)
    = Some processed1
    ∧ ∀ k, processed1 !! k
           = if bool_decide (k = newName ∧ is_Some (answers !! originalField))
             then v ← answers !! originalField;
                  key ← ToPropertyKey v;
                  Some (VObj {[ key := VBool true ]})
             else processed0 !! k.
Proof.
  intros Hn Hs. unfold map_field. simpl.
  destruct (answers !! originalField) as [v|] eqn:Hv.
  - rewrite bool_decide_eq_true_2 by eauto. simpl.
    destruct (scalar_key v (Hs v eq_refl)) as [key Hkey]. rewrite Hkey. simpl.
    eexists. split; [done|]. intros k.
    rewrite set_property_plain by done.
    case_bool_decide as Hk.
    + destruct Hk as [-> _]. by rewrite lookup_insert_eq.
    + rewrite lookup_insert_ne; [done|]. intros <-. apply Hk. eauto.
  - rewrite (bool_decide_eq_false_2 (is_Some None)) by (by intros [? ?]).
    eexists. split; [done|]. intros k.
    rewrite bool_decide_eq_false_2; [done|]. by intros [_ [? ?]].
Qed.

Lemma demographic_answer_inv (data : value) :
  demographic_answer data = true →
  ∃ answers,
    data = VObj answers
    ∧ (∀ orig new v, (orig, new) ∈ FIELD_MAPPING →
                     answers !! orig = Some v → scalar v = true)
    ∧ (∀ v, answers !! "race" = Some v →
            ∃ categories, v = VArr (VStr <$> categories)).
Proof.
  destruct data as [| | | | | |answers]; try discriminate.
  unfold demographic_answer. intros [Hf Hr]%andb_true_iff.
  exists answers. split; [done|]. split.
  - intros orig new v Hin Hv.
    rewrite forallb_forall in Hf.
    apply list_elem_of_In in Hin. specialize (Hf _ Hin). simpl in Hf.
    by rewrite Hv in Hf.
  - intros v Hv. rewrite Hv in Hr.
    destruct v as [| | | | |race|]; try discriminate.
    clear Hv. induction race as [|e race IH].
    + by exists [].
    + simpl in Hr. apply andb_true_iff in Hr as [He Hr].
      destruct (IH Hr) as [categories Hc].
      destruct e; try discriminate.
      exists (s :: categories). simpl. by inversion Hc.
Qed.

(** The whole loop, in terms of lookups: the last entry of the mapping
    that writes a name decides its value. *)
Lemma reduce_map_field_lookup (answers : gmap string value)
    (mapping : list (string * string)) (processed0 : gmap string value) :
  (∀ orig new, (orig, new) ∈ mapping → new ≠ "__proto__") →
  (∀ orig new v, (orig, new) ∈ mapping →
                 answers !! orig = Some v → scalar v = true) →
  ∃ processed1,
    reduce (map_field (VObj answers)) mapping processed0 = Some processed1
    ∧ ∀ k, processed1 !! k
           = foldl (λ (o : option value) (entry : string * string),
                      if bool_decide (k = entry.2
                                      ∧ is_Some (answers !! entry.1))
                      then answers !! entry.1 ≫= flattened
                      else o)
               (processed0 !! k) mapping.
Proof.
  revert processed0.
  induction mapping as [|[orig new] rest IH]; intros processed0 Hn Hs.
  - by exists processed0.
  - destruct (map_field_lookup answers processed0 orig new) as (p1 & Hp1 & Hl).
    { apply (Hn orig). left. }
    { intros v. apply (Hs orig new). left. }
    destruct (IH p1) as (p2 & Hp2 & Hl2).
    { intros o n Hin. apply (Hn o). by right. }
    { intros o n v Hin. apply (Hs o n). by right. }
    exists p2. split.
    + cbn [reduce]. rewrite Hp1. exact Hp2.
    + intros k. rewrite Hl2, Hl. reflexivity.
Qed.

Lemma FIELD_MAPPING_names (orig new : string) :
  (orig, new) ∈ FIELD_MAPPING →
  (orig, new) = ("age", "age") ∨ (orig, new) = ("gender", "gender")
  ∨ (orig, new) = ("hispanicLatinoSpanishOrigin", "origin")
  ∨ (orig, new) = ("school", "education")
  ∨ (orig, new) = ("income", "income")
  ∨ (orig, new) = ("zipCode", "zipCode").
Proof.
  unfold FIELD_MAPPING. rewrite !elem_of_cons, elem_of_nil. tauto.
Qed.

(** The payload of the survey ping, for well-typed survey data. *)
Lemma processed_lookup (answers : gmap string value) :
  demographic_answer (VObj answers) = true →
  ∃ payload,
    processed (VObj answers) = Some payload
    ∧ (∀ orig new, (orig, new) ∈ FIELD_MAPPING →
         payload !! new = answers !! orig ≫= flattened)
    ∧ (∀ v, answers !! "race" = Some v →
         ∃ categories,
           v = VArr (VStr <$> categories)
           ∧ payload !! "races" = Some (VObj (races_of categories)))
    ∧ (answers !! "race" = None → payload !! "races" = None)
    ∧ (∀ k, k ≠ "races" → k ∉ FIELD_MAPPING.*2 → payload !! k = None).
Proof.
  intros (a & Ha & Hs & Hr)%demographic_answer_inv.
  injection Ha as <-.
  destruct (reduce_map_field_lookup answers FIELD_MAPPING ∅)
    as (mapped & Hm & Hl); [| exact Hs |].
  { intros orig new Hin%FIELD_MAPPING_names.
    repeat (destruct Hin as [Hin | Hin]); by simplify_eq. }
  cbn [foldl FIELD_MAPPING fst snd] in Hl.
  assert (∀ orig new, (orig, new) ∈ FIELD_MAPPING →
            mapped !! new = answers !! orig ≫= flattened) as Hfields.
  { intros orig new Hin%FIELD_MAPPING_names.
    rewrite Hl, lookup_empty.
    repeat (destruct Hin as [Hin | Hin]); simplify_eq;
      repeat (case_bool_decide;
              [ match goal with
                | H : _ = _ ∧ _ |- _ => destruct H as [H _]; try discriminate H
                end; try done | ]);
      match goal with
      | |- None = ?o ≫= _ => destruct o eqn:E; [exfalso; naive_solver | done]
      end. }
  assert (∀ k, k ∉ FIELD_MAPPING.*2 → mapped !! k = None) as Hother.
  { intros k Hk. rewrite Hl, lookup_empty.
    repeat (case_bool_decide;
            [ match goal with
              | H : _ = _ ∧ _ |- _ => destruct H as [-> _]
              end;
              exfalso; apply Hk; unfold FIELD_MAPPING; simpl;
              rewrite !elem_of_cons; tauto | ]).
    done. }
  unfold processed. rewrite Hm. cbn [mbind option_bind has_property get].
  destruct (answers !! "race") as [v|] eqn:Hrace.
  - destruct (Hr v eq_refl) as [categories ->].
    rewrite bool_decide_eq_true_2 by eauto. cbn [default from_option]. cbv [id].
    rewrite reduce_mark_race. cbn [mbind option_bind].
    rewrite set_property_plain by done. fold (races_of categories).
    eexists. split; [done|]. repeat split.
    + intros orig new Hin. rewrite lookup_insert_ne; [by apply Hfields|].
      apply FIELD_MAPPING_names in Hin.
      repeat (destruct Hin as [Hin | Hin]); by simplify_eq.
    + intros v [= <-]. exists categories. by rewrite lookup_insert_eq.
    + discriminate.
    + intros k Hk Hk'. rewrite lookup_insert_ne by done. by apply Hother.
  - rewrite (bool_decide_eq_false_2 (is_Some None)) by (by intros [? ?]).
    exists mapped. split; [done|]. repeat split.
    + exact Hfields.
    + discriminate.
    + intros _. apply Hother. unfold FIELD_MAPPING. simpl.
      rewrite !elem_of_cons, elem_of_nil.
      intros H. repeat (destruct H as [H | H]); done.
    + intros k _ Hk'. by apply Hother.
Qed.

(** ** The shaping of arbitrary survey data *)

Lemma reduce_ext {A B : Type} (f g : A → B → option A) (l : list B)
    (init : A) :
  (∀ a b, b ∈ l → f a b = g a b) → reduce f l init = reduce g l init.
Proof.
  revert init. induction l as [|b rest IH]; intros init Hfg; [done|].
  cbn [reduce]. rewrite (Hfg init b) by left.
  destruct (g init b) as [a|]; [|done]. simpl.
  apply IH. intros a' b' Hb'. apply Hfg. by right.
Qed.

Lemma reduce_invariant {A B : Type} (P : A → Prop) (f : A → B → option A)
    (l : list B) (init r : A) :
  P init →
  (∀ a b a', b ∈ l → P a → f a b = Some a' → P a') →
  reduce f l init = Some r → P r.
Proof.
  revert init. induction l as [|b rest IH]; intros init Hinit Hstep Hr.
  - by injection Hr as <-.
  - cbn [reduce] in Hr. destruct (f init b) as [a|] eqn:Hf; [|done].
    simpl in Hr. apply (IH a); [| |done].
    + apply (Hstep init b); [left|done|done].
    + intros a0 b0 a' Hb0. apply Hstep. by right.
Qed.

Lemma reduce_is_Some {A B : Type} (ok : B → bool) (f : A → B → option A)
    (l : list B) (init : A) :
  (∀ a b, is_Some (f a b) ↔ ok b = true) →
  is_Some (reduce f l init) ↔ forallb ok l = true.
Proof.
  intros Hok. revert init. induction l as [|b rest IH]; intros init.
  - cbn. split; [done|]. by eexists.
  - cbn [reduce forallb]. rewrite andb_true_iff, <- (Hok init b).
    destruct (f init b) as [a|]; simpl.
    + rewrite IH. split; [|by intros [_ ?]]. intros H. split; [by eexists|done].
    + split; [by intros [? ?] | by intros [[? ?] _]].
Qed.

Lemma has_key_is_Some (v : value) : is_Some (ToPropertyKey v) ↔ has_key v = true.
Proof.
  unfold has_key. destruct (ToPropertyKey v).
  - split; [done | by eexists].
  - split; [by intros [? ?] | done].
Qed.

(** The shaping code gets through exactly the survey data described by
    [shapable]. *)
Lemma processed_is_Some (data : value) :
  is_Some (processed data) ↔ shapable data = true.
Proof.
  destruct data as [| | | | |elements|answers];
    try (split; [by intros [? ?] | done]).
  unfold processed, shapable. rewrite andb_true_iff.
  rewrite <- (reduce_is_Some
                (λ entry : string * string,
                   match answers !! entry.1 with
                   | Some v => has_key v
                   | None => true
                   end)
                (map_field (VObj answers)) FIELD_MAPPING ∅).
  2:{ intros a [orig new]. unfold map_field. cbn [has_property get fst].
      destruct (answers !! orig) as [v|].
      - rewrite bool_decide_eq_true_2 by eauto. cbn [mbind option_bind default
          from_option]. cbv [id]. rewrite <- has_key_is_Some.
        destruct (ToPropertyKey v); simpl.
        + split; by eexists.
        + split; by intros [? ?].
      - rewrite (bool_decide_eq_false_2 (is_Some None)) by (by intros [? ?]).
        simpl. split; [done|]. by eexists. }
  destruct (reduce (map_field (VObj answers)) FIELD_MAPPING ∅) as [mapped|];
    cbn [mbind option_bind has_property get].
  2:{ split; [by intros [? ?] | by intros [[? ?] _]]. }
  destruct (answers !! "race") as [race|].
  + rewrite bool_decide_eq_true_2 by eauto. cbn [default from_option].
    cbv [id].
    destruct race as [| | | | |race|];
      try (split; [by intros [? ?] | by intros [_ ?]]).
    rewrite <- (reduce_is_Some has_key mark_race race ∅).
    2:{ intros a b. rewrite <- has_key_is_Some. unfold mark_race.
        destruct (ToPropertyKey b); simpl.
        - split; by eexists.
        - split; by intros [? ?]. }
    destruct (reduce mark_race race ∅); simpl.
    * split; [|by eexists]. intros _. split; by eexists.
    * split; [by intros [? ?] | by intros [_ [? ?]]].
  + rewrite (bool_decide_eq_false_2 (is_Some None)) by (by intros [? ?]).
    split; [|by eexists]. intros _. split; [by eexists|done].
Qed.

(** The shaping code reads the survey data at the names of
    [survey_names] only. *)
Lemma processed_ext (answers answers' : gmap string value) :
  (∀ n, n ∈ survey_names → answers !! n = answers' !! n) →
  processed (VObj answers) = processed (VObj answers').
Proof.
  intros Hsame. unfold processed.
  rewrite (reduce_ext (map_field (VObj answers)) (map_field (VObj answers'))).
  2:{ intros a [orig new] Hin. unfold map_field. cbn [has_property get].
      rewrite (Hsame orig); [done|].
      unfold survey_names. apply elem_of_app. left.
      apply list_elem_of_fmap. by exists (orig, new). }
  cbn [has_property get]. rewrite (Hsame "race"); [done|].
  unfold survey_names. apply elem_of_app. right. left.
Qed.

(** The payload does not depend on any property of the survey data
    other than the six mapped questions and ["race"]: adding, changing
    or removing another property leaves it as it is. *)
Theorem processed_ignores_other_properties (answers : gmap string value)
    (k : string) (v : value) :
  k ∉ survey_names →
  processed (VObj (<[k := v]> answers)) = processed (VObj answers)
  ∧ processed (VObj (delete k answers)) = processed (VObj answers).
Proof.
  intros Hk. split; apply processed_ext; intros n Hn.
  - apply lookup_insert_ne. by intros ->.
  - apply lookup_delete_ne. by intros ->.
Qed.

(** Whatever the survey data, a payload that the shaping code builds has
    no name outside [payload_names], and each of its values is an object
    all of whose values are [true]: no answer travels as a value. *)
Theorem payload_is_made_of_flags (data : value)
    (payload : gmap string value) :
  processed data = Some payload →
  ∀ k v, payload !! k = Some v → k ∈ payload_names ∧ flags v.
Proof.
  set (P := λ acc : gmap string value,
              ∀ k v, acc !! k = Some v → k ∈ payload_names ∧ flags v).
  assert (∀ (acc : gmap string value) n m,
            P acc → n ∈ payload_names →
            (∀ k v', m !! k = Some v' → v' = VBool true) →
            P (set_property acc n (VObj m))) as Hset.
  { intros acc n m Hacc Hn Hm k v. unfold set_property.
    destruct (_ && _); [apply Hacc|].
    destruct (decide (k = n)) as [->|Hne].
    - rewrite lookup_insert_eq. intros [= <-]. split; [done|]. by exists m.
    - rewrite lookup_insert_ne by done. apply Hacc. }
  unfold processed. intros Hp.
  destruct (reduce (map_field data) FIELD_MAPPING ∅) as [mapped|] eqn:Hm;
    [|done].
  assert (P mapped) as Hmapped.
  { apply (reduce_invariant P (map_field data) FIELD_MAPPING ∅ mapped);
      [by intros k v; rewrite lookup_empty | | done].
    intros acc [orig new] acc' Hin Hacc. unfold map_field.
    destruct (has_property orig data) as [[]|]; simpl; try done.
    - destruct (ToPropertyKey (get data orig)) as [key|]; simpl; [|done].
      intros [= <-]. apply Hset; [done| |].
      + unfold payload_names. apply elem_of_app. left.
        apply list_elem_of_fmap. by exists (orig, new).
      + intros k v' [<- <-]%lookup_singleton_Some. done.
    - by intros [= <-]. }
  simpl in Hp. destruct (has_property "race" data) as [[]|]; simpl in Hp;
    try done; [|by injection Hp as <-].
  destruct (get data "race") as [| | | | |race|]; try done.
  destruct (reduce mark_race race ∅) as [races|] eqn:Hr; [|done].
  simpl in Hp. injection Hp as <-. apply Hset; [done| |].
  - unfold payload_names. apply elem_of_app. right. left.
  - apply (reduce_invariant
             (λ a : gmap string value,
                ∀ k v', a !! k = Some v' → v' = VBool true)
             mark_race race ∅ races); [by intros k v'; rewrite lookup_empty | | done].
    intros a b a' _ Ha. unfold mark_race.
    destruct (ToPropertyKey b) as [key|]; simpl; [|done].
    intros [= <-] k v'. unfold set_property. destruct (_ && _); [apply Ha|].
    destruct (decide (k = key)) as [->|Hne].
    + rewrite lookup_insert_eq. by intros [= <-].
    + rewrite lookup_insert_ne by done. apply Ha.
Qed.

(** Options that conform have every declared property, well typed. *)
Lemma conforms_declared (options : value) (k type : string) :
  conforms options = true → (k, type) ∈ options_schema →
  ∃ v, field k options = Some v ∧ of_type type v = true.
Proof.
  destruct options as [| | | | | |properties]; try discriminate.
  unfold conforms. intros [Hall _]%andb_true_iff Hin.
  rewrite forallb_forall in Hall.
  apply list_elem_of_In in Hin. specialize (Hall _ Hin).
  cbn [fst snd] in Hall. cbn [field].
  destruct (properties !! k) as [v|]; [by exists v | discriminate].
Qed.

(** ** The methods, against an arbitrary host *)

Section Properties.

Variable submitEncryptedPing : string → value → value → settlement.

Local Abbreviation sendPing := (DataCollection.sendPing submitEncryptedPing).
Local Abbreviation _sendEmptyPing :=
  (DataCollection._sendEmptyPing submitEncryptedPing).
Local Abbreviation sendEnrollmentPing :=
  (DataCollection.sendEnrollmentPing submitEncryptedPing).
Local Abbreviation sendDeletionPing :=
  (DataCollection.sendDeletionPing submitEncryptedPing).
Local Abbreviation sendDemographicSurveyPing :=
  (DataCollection.sendDemographicSurveyPing submitEncryptedPing).
Local Abbreviation perform := (perform submitEncryptedPing).

(** A valid id: one call, one console line, normal completion. *)
Lemma sendPing_valid rallyId payloadType payload namespace keyId key w :
  valid_id rallyId = true →
  let options :=
    object [ ("studyName", namespace);
             ("addPioneerId", VBool true);
             ("overridePioneerId", rallyId);
             ("encryptionKeyId", keyId);
             ("publicKey", key);
             ("schemaName", payloadType);
             ("schemaVersion", VNum "1");
             ("schemaNamespace", namespace) ] in
  sendPing rallyId payloadType payload namespace keyId key w
  = (Normal (),
     World (calls w ++ [Call "pioneer-study" payload options])
           (console w ++
              [report (submitEncryptedPing "pioneer-study" payload options)
                 options payload])).
Proof.
  intros Hv options. unfold DataCollection.sendPing, valid_id in *.
  apply andb_true_iff in Hv as [-> ->]. simpl.
  unfold mbind, js_bind, DataCollection.await_submitEncryptedPing. simpl.
  fold options.
  destruct (submitEncryptedPing "pioneer-study" payload options); reflexivity.
Qed.

(** An invalid id: the guard raises and nothing else happens. *)
Lemma sendPing_invalid rallyId payloadType payload namespace keyId key w :
  valid_id rallyId = false →
  sendPing rallyId payloadType payload namespace keyId key w
  = (Throw (refusal rallyId), w).
Proof.
  intros Hv. unfold DataCollection.sendPing, valid_id, refusal in *.
  rewrite <- negb_andb, Hv. cbn [negb].
  destruct (ToString rallyId); reflexivity.
Qed.

(** An empty ping with a valid id: the empty payload goes out once, under
    the key that the namespace selects. *)
Lemma _sendEmptyPing_valid rallyId payloadType namespace w :
  valid_id rallyId = true →
  ∃ options line,
    _sendEmptyPing rallyId payloadType namespace w
    = (Normal (),
       World (calls w ++ [Call "pioneer-study" (VObj ∅) options])
             (console w ++ [line]))
    ∧ field "studyName" options = Some namespace
    ∧ field "schemaNamespace" options = Some namespace
    ∧ field "schemaName" options = Some payloadType
    ∧ field "encryptionKeyId" options
      = Some (VStr (if is_string "pioneer-core" namespace
                    then "core" else "discarded"))
    ∧ field "publicKey" options
      = Some (if is_string "pioneer-core" namespace
              then CORE_ENCRYPTION_JWK else DISCARDED_JWK).
Proof.
  intros Hv. unfold DataCollection._sendEmptyPing.
  destruct (is_string "pioneer-core" namespace);
    (eexists _, _; split;
     [by apply sendPing_valid | repeat split; reflexivity]).
Qed.

(** ** The generic ping: [sendPing] *)

(** C1 (amended).  For a non-empty string id [p] and any kind label,
    payload, namespace, key id and key, [sendPing] invokes the host
    primitive once, with the outer type ["pioneer-study"], the payload it
    was given, and an options object whose [schemaName] is the kind
    label, [schemaNamespace] the namespace, [schemaVersion] the number 1,
    [addPioneerId] the boolean [true] and [overridePioneerId] the id
    [p]. *)
Theorem sendPing_builds_options (p : string)
    (payloadType payload namespace keyId key : value) (w : world) :
  p ≠ "" →
  ∃ options line,
    sendPing (VStr p) payloadType payload namespace keyId key w
    = (Normal (),
       World (calls w ++ [Call "pioneer-study" payload options])
             (console w ++ [line]))
    ∧ field "schemaName" options = Some payloadType
    ∧ field "schemaNamespace" options = Some namespace
    ∧ field "schemaVersion" options = Some (VNum "1")
    ∧ field "addPioneerId" options = Some (VBool true)
    ∧ field "overridePioneerId" options = Some (VStr p).
Proof.
  intros Hp. eexists _, _. split.
  - apply sendPing_valid, valid_id_string, Hp.
  - repeat split; reflexivity.
Qed.

(** C2, and where the code departs from it.  [sendPing] raises exactly
    when the id is the empty string, another falsy value, or not a
    string, and whenever it raises it leaves the world as it found it:
    the host primitive has not been invoked.  What it raises is its
    validation error only when the id can be rendered into the message;
    for an id that cannot, such as the object [{toString: 1}], the
    template literal of the guard raises a [TypeError] before the
    [Error] exists. *)
Theorem sendPing_raises_iff_invalid
    (rallyId payloadType payload namespace keyId key : value) (w : world) :
  let r := sendPing rallyId payloadType payload namespace keyId key w in
  ((∃ e, r.1 = Throw e)
   ↔ rallyId = VStr "" ∨ truthy rallyId = false ∨ typeof rallyId ≠ "string")
  ∧ (∀ e, r.1 = Throw e → r.2 = w ∧ calls r.2 = calls w)
  ∧ (∀ e, r.1 = Throw e →
          (is_validation_error e = true ↔ is_Some (ToString rallyId))
          ∧ (e = TypeError ↔ ToString rallyId = None))
  ∧ sendPing (object [ ("toString", VNum "1") ]) payloadType payload
      namespace keyId key w
    = (Throw TypeError, w).
Proof.
  intros r. subst r. split; [|split; [|split]].
  - destruct (valid_id rallyId) eqn:Hv.
    + rewrite sendPing_valid by done. simpl. split.
      * intros [e He]. discriminate He.
      * apply valid_id_inv in Hv as (p & -> & Hp).
        intros [H | [H | H]]; exfalso.
        -- congruence.
        -- simpl in H. rewrite bool_decide_eq_false_2 in H by done.
           discriminate H.
        -- by apply H.
    + rewrite sendPing_invalid by done. simpl. split.
      * intros _. unfold valid_id in Hv.
        apply andb_false_iff in Hv as [H | H%bool_decide_eq_false]; auto.
      * intros _. by eexists.
  - intros e. destruct (valid_id rallyId) eqn:Hv.
    + rewrite sendPing_valid by done. discriminate.
    + by rewrite sendPing_invalid.
  - intros e. destruct (valid_id rallyId) eqn:Hv.
    + rewrite sendPing_valid by done. discriminate.
    + rewrite sendPing_invalid by done. simpl. intros [= <-].
      unfold refusal. destruct (ToString rallyId) as [rendered|]; simpl.
      * split; [split; [intros _; by eexists | done] | split; discriminate].
      * split; [split; [discriminate | by intros [? ?]] | done].
  - by apply sendPing_invalid.
Qed.

(** C8.  Once the id has passed validation, [sendPing] completes
    normally whatever the host answers, having invoked the primitive
    exactly once; when the host reports a failure, the handler writes
    the error to the console and nothing is raised. *)
Theorem sendPing_swallows_failure
    (rallyId payloadType payload namespace keyId key : value) (w : world) :
  valid_id rallyId = true →
  ∃ options line,
    sendPing rallyId payloadType payload namespace keyId key w
    = (Normal (),
       World (calls w ++ [Call "pioneer-study" payload options])
             (console w ++ [line]))
    ∧ ∀ error,
        submitEncryptedPing "pioneer-study" payload options = Rejected error →
        line = error_line error.
Proof.
  intros Hv. eexists _, _. split.
  - by apply sendPing_valid.
  - intros error ->. reflexivity.
Qed.

(** ** Empty pings: key selection, enrollment, deletion *)

(** C5.  The key of an empty ping is decided by the namespace alone, for
    every kind label and every (valid) id: the namespace ["pioneer-core"]
    gets the key id ["core"] and the core key, any other namespace the
    key id ["discarded"] and the discard key; both keys are on the curve
    P-256, and the selection itself never fails. *)
Theorem key_follows_namespace (p : string) (payloadType namespace : value)
    (w : world) :
  p ≠ "" →
  ∃ options line,
    _sendEmptyPing (VStr p) payloadType namespace w
    = (Normal (),
       World (calls w ++ [Call "pioneer-study" (VObj ∅) options])
             (console w ++ [line]))
    ∧ (namespace = VStr "pioneer-core" →
       field "encryptionKeyId" options = Some (VStr "core")
       ∧ field "publicKey" options = Some CORE_ENCRYPTION_JWK)
    ∧ (namespace ≠ VStr "pioneer-core" →
       field "encryptionKeyId" options = Some (VStr "discarded")
       ∧ field "publicKey" options = Some DISCARDED_JWK)
    ∧ field "crv" CORE_ENCRYPTION_JWK = Some (VStr "P-256")
    ∧ field "crv" DISCARDED_JWK = Some (VStr "P-256")
    ∧ CORE_ENCRYPTION_JWK ≠ DISCARDED_JWK.
Proof.
  intros Hp.
  destruct (_sendEmptyPing_valid (VStr p) payloadType namespace w)
    as (options & line & Hrun & _ & _ & _ & Hid & Hkey).
  { by apply valid_id_string. }
  exists options, line. split; [exact Hrun|].
  split; [|split; [|split; [|split]]].
  - intros Hns%is_string_true. rewrite Hns in Hid, Hkey. done.
  - intros Hns%is_string_false. rewrite Hns in Hid, Hkey. done.
  - reflexivity.
  - reflexivity.
  - intros H.
    assert (field "kid" CORE_ENCRYPTION_JWK = field "kid" DISCARDED_JWK)
      as Hkid by (by rewrite H).
    vm_compute in Hkid. discriminate Hkid.
Qed.

(** C3.  Without a study id, [sendDeletionPing] raises its validation
    error for every id and leaves the world untouched; with a non-empty
    string id and a study id [s], it dispatches one ping with the empty
    object as payload, [schemaName] ["deletion-request"] and
    [schemaNamespace] [s]. *)
Theorem sendDeletionPing_requires_study :
  (∀ (rallyId : value) (w : world),
     sendDeletionPing rallyId VUndefined w = (Throw StudyIdRequired, w)
     ∧ is_validation_error StudyIdRequired = true)
  ∧ (∀ (p : string) (s : value) (w : world),
       p ≠ "" → s ≠ VUndefined →
       ∃ options line,
         sendDeletionPing (VStr p) s w
         = (Normal (),
            World (calls w ++ [Call "pioneer-study" (VObj ∅) options])
                  (console w ++ [line]))
         ∧ field "schemaName" options = Some (VStr "deletion-request")
         ∧ field "schemaNamespace" options = Some s).
Proof.
  split.
  - intros rallyId w. split; reflexivity.
  - intros p s w Hp Hs%is_undefined_false.
    unfold DataCollection.sendDeletionPing. rewrite Hs.
    destruct (_sendEmptyPing_valid (VStr p) (VStr "deletion-request") s w)
      as (options & line & Hrun & _ & Hns & Hname & _).
    { by apply valid_id_string. }
    by exists options, line.
Qed.

(** C4 (amended).  For a non-empty string id, [sendEnrollmentPing]
    without a study id dispatches the empty payload with [schemaName]
    ["pioneer-enrollment"], [schemaNamespace] ["pioneer-core"] and key id
    ["core"]; with a non-empty study id [s] other than ["pioneer-core"]
    it dispatches the empty payload with [schemaNamespace] [s] and key id
    ["discarded"]. *)
Theorem sendEnrollmentPing_routes (p : string) (w : world) :
  p ≠ "" →
  (∃ options line,
     sendEnrollmentPing (VStr p) VUndefined w
     = (Normal (),
        World (calls w ++ [Call "pioneer-study" (VObj ∅) options])
              (console w ++ [line]))
     ∧ field "schemaName" options = Some (VStr "pioneer-enrollment")
     ∧ field "schemaNamespace" options = Some (VStr "pioneer-core")
     ∧ field "encryptionKeyId" options = Some (VStr "core"))
  ∧ (∀ s : string,
       s ≠ "" → s ≠ "pioneer-core" →
       ∃ options line,
         sendEnrollmentPing (VStr p) (VStr s) w
         = (Normal (),
            World (calls w ++ [Call "pioneer-study" (VObj ∅) options])
                  (console w ++ [line]))
         ∧ field "schemaName" options = Some (VStr "pioneer-enrollment")
         ∧ field "schemaNamespace" options = Some (VStr s)
         ∧ field "encryptionKeyId" options = Some (VStr "discarded")).
Proof.
  intros Hp%valid_id_string. split.
  - destruct (_sendEmptyPing_valid (VStr p) (VStr "pioneer-enrollment")
                (VStr "pioneer-core") w Hp)
      as (options & line & Hrun & _ & Hns & Hname & Hid & _).
    by exists options, line.
  - intros s _ Hs.
    destruct (_sendEmptyPing_valid (VStr p) (VStr "pioneer-enrollment")
                (VStr s) w Hp)
      as (options & line & Hrun & _ & Hns & Hname & Hid & _).
    exists options, line. repeat split; try done.
    rewrite Hid. simpl. by rewrite bool_decide_eq_false_2.
Qed.

(** C10 (amended).  [sendEnrollmentPing] routes to ["pioneer-core"] by
    default only when the study id is [undefined]; any other value, the
    empty string and [null] included, is the namespace as it stands,
    and selects the key id ["discarded"] unless it is the string
    ["pioneer-core"] itself, which selects the key id ["core"]. *)
Theorem sendEnrollmentPing_default_namespace (p : string)
    (studyAddonId : value) (w : world) :
  p ≠ "" →
  ∃ options line,
    sendEnrollmentPing (VStr p) studyAddonId w
    = (Normal (),
       World (calls w ++ [Call "pioneer-study" (VObj ∅) options])
             (console w ++ [line]))
    ∧ (studyAddonId = VUndefined →
       field "schemaNamespace" options = Some (VStr "pioneer-core")
       ∧ field "encryptionKeyId" options = Some (VStr "core"))
    ∧ (studyAddonId ≠ VUndefined →
       field "schemaNamespace" options = Some studyAddonId
       ∧ (studyAddonId ≠ VStr "pioneer-core" →
          field "encryptionKeyId" options = Some (VStr "discarded"))
       ∧ (studyAddonId = VStr "pioneer-core" →
          field "encryptionKeyId" options = Some (VStr "core"))).
Proof.
  intros Hp%valid_id_string. unfold DataCollection.sendEnrollmentPing.
  destruct (is_undefined studyAddonId) eqn:Hu; simpl.
  - apply is_undefined_true in Hu as ->.
    destruct (_sendEmptyPing_valid (VStr p) (VStr "pioneer-enrollment")
                (VStr "pioneer-core") w Hp)
      as (options & line & Hrun & _ & Hns & _ & Hid & _).
    exists options, line. by repeat split.
  - apply is_undefined_false in Hu.
    destruct (_sendEmptyPing_valid (VStr p) (VStr "pioneer-enrollment")
                studyAddonId w Hp)
      as (options & line & Hrun & _ & Hns & _ & Hid & _).
    exists options, line. split; [done|]. split; [done|].
    intros _. split; [done|]. split.
    + intros Hc%is_string_false. by rewrite Hc in Hid.
    + intros Hc%is_string_true. by rewrite Hc in Hid.
Qed.

(** C6.  For a non-empty string id and well-typed survey data,
    [sendDemographicSurveyPing] dispatches one ping to the namespace
    ["pioneer-core"] under the core key.  The payload has [age] exactly
    when the data has [age], [gender] when it has [gender], [origin]
    when it has [hispanicLatinoSpanishOrigin], [education] when it has
    [school], [income] when it has [income] and [zipCode] when it has
    [zipCode]; the value is then the object whose only key is the
    answer, mapped to [true].  The payload has [races] exactly when the
    data has [race], and it has no other key. *)
Theorem sendDemographicSurveyPing_shapes (p : string) (data : value)
    (w : world) :
  p ≠ "" → demographic_answer data = true →
  ∃ answers payload options line,
    data = VObj answers
    ∧ sendDemographicSurveyPing (VStr p) data w
      = (Normal (),
         World (calls w ++ [Call "pioneer-study" (VObj payload) options])
               (console w ++ [line]))
    ∧ field "schemaName" options = Some (VStr "demographic-survey")
    ∧ field "schemaNamespace" options = Some (VStr "pioneer-core")
    ∧ field "encryptionKeyId" options = Some (VStr "core")
    ∧ field "publicKey" options = Some CORE_ENCRYPTION_JWK
    ∧ renamed answers payload "age" "age"
    ∧ renamed answers payload "gender" "gender"
    ∧ renamed answers payload "hispanicLatinoSpanishOrigin" "origin"
    ∧ renamed answers payload "school" "education"
    ∧ renamed answers payload "income" "income"
    ∧ renamed answers payload "zipCode" "zipCode"
    ∧ match answers !! "race" with
      | Some race =>
          ∃ categories, race = VArr (VStr <$> categories)
                        ∧ payload !! "races" = Some (VObj (races_of categories))
      | None => payload !! "races" = None
      end
    ∧ (∀ k, k ∉ ["age"; "gender"; "origin"; "education"; "income";
                 "zipCode"; "races"] →
            payload !! k = None).
Proof.
  intros Hp%valid_id_string Hd.
  destruct (demographic_answer_inv data Hd) as (answers & -> & Hs & _).
  destruct (processed_lookup answers Hd)
    as (payload & Hpay & Hfields & Hrace & Hnorace & Hother).
  assert (∀ orig new, (orig, new) ∈ FIELD_MAPPING →
                      renamed answers payload orig new) as Hrenamed.
  { intros orig new Hin. specialize (Hfields orig new Hin). unfold renamed.
    destruct (answers !! orig) as [answer|] eqn:Ha; [|done].
    destruct (scalar_key answer (Hs orig new answer Hin Ha)) as [key Hkey].
    exists key. split; [done|]. rewrite Hfields. simpl.
    unfold flattened. by rewrite Hkey. }
  exists answers, payload. eexists _, _. split; [done|]. split.
  { unfold DataCollection.sendDemographicSurveyPing. rewrite Hpay.
    unfold mbind, js_bind, or_type_error, mret, js_ret.
    by apply sendPing_valid. }
  do 4 (split; [reflexivity|]).
  do 6 (split; [apply Hrenamed; unfold FIELD_MAPPING;
                rewrite !elem_of_cons; tauto|]).
  split.
  - destruct (answers !! "race") as [race|]; [by apply Hrace | by apply Hnorace].
  - intros k Hk. apply Hother.
    + intros ->. apply Hk. rewrite !elem_of_cons. tauto.
    + intros Hin. apply Hk. unfold FIELD_MAPPING in Hin. simpl in Hin.
      rewrite !elem_of_cons in *. tauto.
Qed.

(** ** An invariant of every operation *)

Lemma sendPing_calls rallyId payloadType payload namespace keyId key w :
  let w' := (sendPing rallyId payloadType payload namespace keyId key w).2 in
  calls w' = calls w
  ∨ ∃ c : call, calls w' = (calls w ++ [c])%list ∧ one_namespace c.
Proof.
  destruct (valid_id rallyId) eqn:Hv; simpl.
  - right. rewrite sendPing_valid by done. eexists. split; [done|].
    by exists namespace.
  - left. by rewrite sendPing_invalid.
Qed.

Lemma perform_calls (r : request) (w : world) :
  calls (perform r w).2 = calls w
  ∨ ∃ c : call, calls (perform r w).2 = (calls w ++ [c])%list ∧ one_namespace c.
Proof.
  destruct r; simpl.
  - apply sendPing_calls.
  - unfold DataCollection._sendEmptyPing.
    destruct (is_string "pioneer-core" namespace); apply sendPing_calls.
  - unfold DataCollection.sendEnrollmentPing, DataCollection._sendEmptyPing.
    destruct (is_undefined studyAddonId); simpl;
      [|destruct (is_string "pioneer-core" studyAddonId)]; apply sendPing_calls.
  - unfold DataCollection.sendDeletionPing, DataCollection._sendEmptyPing.
    destruct (is_undefined studyAddonId); [by left|].
    destruct (is_string "pioneer-core" studyAddonId); apply sendPing_calls.
  - unfold DataCollection.sendDemographicSurveyPing.
    destruct (processed data) as [payload|]; [|by left].
    apply sendPing_calls.
Qed.

(** C9.  Every operation keeps the invariant that each options object
    handed to the host has its [studyName] equal to its
    [schemaNamespace], whatever the operation and its arguments. *)
Theorem perform_keeps_one_namespace (r : request) (w : world) :
  Forall one_namespace (calls w) →
  Forall one_namespace (calls (perform r w).2).
Proof.
  intros Hw. destruct (perform_calls r w) as [-> | (c & -> & Hc)]; [done|].
  apply Forall_app. split; [done|]. by constructor.
Qed.

(** ** All the operations at once *)

(** An operation either raises and leaves no trace, or is one run of
    [sendPing] past its guard. *)
Lemma perform_cases (r : request) (w : world) :
  (∃ e, perform r w = (Throw e, w))
  ∨ ∃ rallyId payloadType payload namespace keyId key,
      valid_id rallyId = true
      ∧ perform r w
        = sendPing rallyId payloadType payload namespace keyId key w
      ∧ (selects_key r = true →
         keyId = VStr (if is_string "pioneer-core" namespace
                       then "core" else "discarded")
         ∧ key = if is_string "pioneer-core" namespace
                 then CORE_ENCRYPTION_JWK else DISCARDED_JWK).
Proof.
  assert (∀ rallyId payloadType payload namespace keyId key,
            (∃ e, sendPing rallyId payloadType payload namespace keyId key w
                  = (Throw e, w))
            ∨ valid_id rallyId = true) as Hguard.
  { intros rallyId payloadType payload namespace keyId key.
    destruct (valid_id rallyId) eqn:Hv; [by right|].
    left. eexists. by apply sendPing_invalid. }
  destruct r as [rallyId payloadType payload namespace keyId key
                |rallyId payloadType namespace
                |rallyId studyAddonId
                |rallyId studyAddonId
                |rallyId data]; simpl.
  - destruct (Hguard rallyId payloadType payload namespace keyId key)
      as [He | Hv]; [by left|].
    right. by exists rallyId, payloadType, payload, namespace, keyId, key.
  - unfold DataCollection._sendEmptyPing.
    destruct (is_string "pioneer-core" namespace) eqn:Hs;
      through_the_guard Hguard.
  - unfold DataCollection.sendEnrollmentPing, DataCollection._sendEmptyPing.
    destruct (is_undefined studyAddonId); simpl;
      [|destruct (is_string "pioneer-core" studyAddonId) eqn:Hs];
      through_the_guard Hguard.
  - unfold DataCollection.sendDeletionPing, DataCollection._sendEmptyPing.
    destruct (is_undefined studyAddonId); [left; by eexists|].
    destruct (is_string "pioneer-core" studyAddonId) eqn:Hs;
      through_the_guard Hguard.
  - unfold DataCollection.sendDemographicSurveyPing.
    destruct (processed data) as [payload|]; [|left; by eexists].
    unfold mbind, js_bind, or_type_error, mret, js_ret.
    through_the_guard Hguard.
Qed.

(** Every operation, on every input, either raises and leaves the
    world as it found it (no call, no console line), or completes
    normally after exactly one call of type ["pioneer-study"] and
    exactly one console line: the echo of the options and the payload of
    that call when the host fulfils its promise, the error when it
    rejects it. *)
Theorem perform_all_or_nothing (r : request) (w : world) :
  (∃ e, perform r w = (Throw e, w))
  ∨ ∃ c : call,
      ping_type c = "pioneer-study"
      ∧ perform r w
        = (Normal (),
           World (calls w ++ [c])
                 (console w ++
                    [report (submitEncryptedPing (ping_type c)
                               (ping_payload c) (ping_options c))
                       (ping_options c) (ping_payload c)])).
Proof.
  destruct (perform_cases r w)
    as [He | (rallyId & t & payload & n & k & j & Hv & -> & _)]; [by left|].
  right. rewrite sendPing_valid by done. by eexists (Call _ _ _).
Qed.

(** Every operation keeps the invariant that each call handed to the
    host bears the marks of [sendPing]: the id to use is a non-empty
    string, the host is asked to add it, and the schema version is 1. *)
Theorem perform_keeps_stamped (r : request) (w : world) :
  Forall stamped (calls w) → Forall stamped (calls (perform r w).2).
Proof.
  intros Hw.
  destruct (perform_cases r w)
    as [[e ->] | (rallyId & t & payload & n & k & j & Hv & -> & _)]; [done|].
  rewrite sendPing_valid by done. cbn [snd calls].
  apply Forall_app. split; [done|]. constructor; [|done].
  apply valid_id_inv in Hv as (p & -> & Hp).
  split; [done|]. by exists p.
Qed.

(** Every operation other than the generic ping keeps the invariant that
    the key of each call is the one its namespace selects: the core key
    for ["pioneer-core"], the discard key for anything else. *)
Theorem perform_keeps_keyed (r : request) (w : world) :
  selects_key r = true →
  Forall keyed_by_namespace (calls w) →
  Forall keyed_by_namespace (calls (perform r w).2).
Proof.
  intros Hr Hw.
  destruct (perform_cases r w)
    as [[e ->] | (rallyId & t & payload & n & k & j & Hv & -> & Hkey)];
    [done|].
  destruct (Hkey Hr) as [-> ->].
  rewrite sendPing_valid by done. cbn [snd calls].
  apply Forall_app. split; [done|]. constructor; [|done]. by exists n.
Qed.

(** An id that fails the guard of [sendPing] is refused by every method,
    with no call made.  What is raised is the [Error] of the guard or,
    for an id that cannot be rendered into its message, a [TypeError];
    two checks come before the guard: the missing study id of a
    deletion, and the shaping of the survey. *)
Theorem invalid_id_is_refused (rallyId : value) (w : world) :
  valid_id rallyId = false →
  (∀ payloadType namespace,
     _sendEmptyPing rallyId payloadType namespace w
     = (Throw (refusal rallyId), w))
  ∧ (∀ studyAddonId,
       sendEnrollmentPing rallyId studyAddonId w
       = (Throw (refusal rallyId), w))
  ∧ (∀ studyAddonId,
       sendDeletionPing rallyId studyAddonId w
       = (Throw (if is_undefined studyAddonId
                 then StudyIdRequired else refusal rallyId), w))
  ∧ (∀ data,
       sendDemographicSurveyPing rallyId data w
       = (Throw (if shapable data then refusal rallyId else TypeError), w))
  ∧ (is_Some (ToString rallyId) → refusal rallyId = InvalidRallyId rallyId)
  ∧ (ToString rallyId = None → refusal rallyId = TypeError).
Proof.
  intros Hv.
  assert (∀ payloadType namespace,
            _sendEmptyPing rallyId payloadType namespace w
            = (Throw (refusal rallyId), w)) as Hempty.
  { intros payloadType namespace. unfold DataCollection._sendEmptyPing.
    destruct (is_string "pioneer-core" namespace); by apply sendPing_invalid. }
  split; [exact Hempty|]. split; [|split; [|split; [|split]]].
  - intros studyAddonId. unfold DataCollection.sendEnrollmentPing.
    destruct (is_undefined studyAddonId); apply Hempty.
  - intros studyAddonId. unfold DataCollection.sendDeletionPing.
    destruct (is_undefined studyAddonId); [done | apply Hempty].
  - intros data. unfold DataCollection.sendDemographicSurveyPing.
    pose proof (processed_is_Some data) as Hshape.
    destruct (processed data) as [payload|].
    + rewrite (proj1 Hshape) by eauto.
      unfold mbind, js_bind, or_type_error, mret, js_ret.
      by apply sendPing_invalid.
    + destruct (shapable data); [|done].
      destruct (proj2 Hshape eq_refl) as [? ?]. done.
  - unfold refusal. by intros [rendered ->].
  - unfold refusal. by intros ->.
Qed.

(** When the survey data is not [shapable], [sendDemographicSurveyPing]
    raises a [TypeError] whatever the id.  That, and an id which fails
    the guard and cannot be rendered into its message, are the only
    ways for it to raise a [TypeError]; either way the world is left as
    it was found. *)
Theorem survey_type_error (rallyId data : value) (w : world) :
  let r := sendDemographicSurveyPing rallyId data w in
  (shapable data = false → r = (Throw TypeError, w))
  ∧ (r.1 = Throw TypeError
     ↔ shapable data = false
       ∨ (valid_id rallyId = false ∧ ToString rallyId = None))
  ∧ (r.1 = Throw TypeError → r.2 = w).
Proof.
  intros r. subst r. unfold DataCollection.sendDemographicSurveyPing.
  pose proof (processed_is_Some data) as Hshape.
  destruct (processed data) as [payload|].
  - rewrite (proj1 Hshape) by eauto.
    unfold mbind, js_bind, or_type_error, mret, js_ret.
    split; [done|].
    destruct (valid_id rallyId) eqn:Hv.
    + rewrite sendPing_valid by done. simpl.
      split; [|done]. split; [done|]. by intros [? | [? _]].
    + rewrite sendPing_invalid by done. simpl. split; [|done].
      unfold refusal. destruct (ToString rallyId) as [rendered|].
      * split; [done|]. by intros [? | [_ ?]].
      * split; [|done]. intros _. by right.
  - destruct (shapable data).
    + destruct (proj2 Hshape eq_refl) as [? ?]. done.
    + repeat split; try done. intros _. by left.
Qed.

(** Survey data in which none of the seven names is present, and an
    array in particular, is no error: the ping goes out to
    ["pioneer-core"] with the empty object as payload. *)
Theorem survey_without_answers (p : string) (data : value) (w : world) :
  p ≠ "" →
  (∃ elements, data = VArr elements)
  ∨ (∃ answers, data = VObj answers
                ∧ ∀ n, n ∈ survey_names → answers !! n = None) →
  ∃ options line,
    sendDemographicSurveyPing (VStr p) data w
    = (Normal (),
       World (calls w ++ [Call "pioneer-study" (VObj ∅) options])
             (console w ++ [line]))
    ∧ field "schemaNamespace" options = Some (VStr "pioneer-core").
Proof.
  intros Hp%valid_id_string Hdata.
  assert (processed data = Some ∅) as Hempty.
  { destruct Hdata as [[elements ->] | (answers & -> & Hnone)]; [done|].
    rewrite (processed_ext answers ∅); [done|].
    intros n Hn. by rewrite Hnone, lookup_empty. }
  unfold DataCollection.sendDemographicSurveyPing. rewrite Hempty.
  unfold mbind, js_bind, or_type_error, mret, js_ret.
  eexists _, _. split; [by apply sendPing_valid | reflexivity].
Qed.

(** A deletion ping and an enrollment ping for the same id and the same
    study differ in the [schemaName] of their options and in nothing
    else that is handed to the host. *)
Theorem deletion_mirrors_enrollment (p : string) (studyAddonId : value)
    (w : world) :
  p ≠ "" → studyAddonId ≠ VUndefined →
  ∃ options line line',
    sendEnrollmentPing (VStr p) studyAddonId w
    = (Normal (),
       World (calls w ++ [Call "pioneer-study" (VObj ∅) (VObj options)])
             (console w ++ [line]))
    ∧ sendDeletionPing (VStr p) studyAddonId w
      = (Normal (),
         World (calls w ++
                  [Call "pioneer-study" (VObj ∅)
                     (VObj (<["schemaName" := VStr "deletion-request"]>
                              options))])
               (console w ++ [line']))
    ∧ options !! "schemaName" = Some (VStr "pioneer-enrollment").
Proof.
  intros Hp%valid_id_string Hs%is_undefined_false.
  unfold DataCollection.sendEnrollmentPing, DataCollection.sendDeletionPing,
    DataCollection._sendEmptyPing.
  rewrite Hs. cbn [negb].
  destruct (is_string "pioneer-core" studyAddonId);
    (eexists _, _, _; split; [by apply sendPing_valid|];
     split; [by rewrite sendPing_valid | reflexivity]).
Qed.

(** When the arguments have the documented types, every operation keeps
    the invariant that the options handed to the host are as the schema
    of the host declares them: all eight properties, each of its
    declared type, and no other. *)
Theorem perform_keeps_conforming (r : request) (w : world) :
  typed_request r = true →
  Forall (λ c, conforms (ping_options c) = true) (calls w) →
  Forall (λ c, conforms (ping_options c) = true) (calls (perform r w).2).
Proof.
  intros Hr Hw.
  assert (∀ rallyId payloadType payload namespace keyId key,
            of_type "string" payloadType = true →
            of_type "string" namespace = true →
            of_type "string" keyId = true →
            of_type "object" key = true →
            Forall (λ c, conforms (ping_options c) = true)
              (calls (sendPing rallyId payloadType payload namespace keyId
                        key w).2)) as Hleaf.
  { intros rallyId payloadType payload namespace keyId key Ht Hn Hk Hj.
    destruct (valid_id rallyId) eqn:Hv.
    - rewrite sendPing_valid by done. cbn [snd calls].
      apply Forall_app. split; [done|]. constructor; [|done].
      apply valid_id_inv in Hv as (p & -> & _).
      destruct payloadType; try discriminate Ht.
      destruct namespace; try discriminate Hn.
      destruct keyId; try discriminate Hk.
      destruct key; try discriminate Hj.
      vm_compute. reflexivity.
    - by rewrite sendPing_invalid. }
  assert (∀ rallyId payloadType namespace,
            of_type "string" payloadType = true →
            of_type "string" namespace = true →
            Forall (λ c, conforms (ping_options c) = true)
              (calls (_sendEmptyPing rallyId payloadType namespace w).2))
    as Hempty.
  { intros rallyId payloadType namespace Ht Hn.
    unfold DataCollection._sendEmptyPing.
    destruct (is_string "pioneer-core" namespace); by apply Hleaf. }
  destruct r as [rallyId payloadType payload namespace keyId key
                |rallyId payloadType namespace
                |rallyId studyAddonId
                |rallyId studyAddonId
                |rallyId data]; cbn [typed_request] in Hr; simpl.
  - apply andb_true_iff in Hr as [[[Ht Hn]%andb_true_iff Hk]%andb_true_iff Hj].
    by apply Hleaf.
  - apply andb_true_iff in Hr as [Ht Hn]. by apply Hempty.
  - unfold DataCollection.sendEnrollmentPing.
    destruct (is_undefined studyAddonId); simpl in *; by apply Hempty.
  - unfold DataCollection.sendDeletionPing.
    destruct (is_undefined studyAddonId); simpl in *; [done | by apply Hempty].
  - unfold DataCollection.sendDemographicSurveyPing.
    destruct (processed data) as [payload|]; [|done].
    by apply Hleaf.
Qed.

(** A study id that is given and is not a string is handed to the host
    as it stands, by enrollment and deletion alike: the options then
    break the schema of the host, which declares [studyName] and
    [schemaNamespace] as strings. *)
Theorem untyped_study_id_breaks_schema (p : string) (studyAddonId : value)
    (w : world) :
  p ≠ "" → studyAddonId ≠ VUndefined → typeof studyAddonId ≠ "string" →
  ∃ options options' line line',
    sendEnrollmentPing (VStr p) studyAddonId w
    = (Normal (),
       World (calls w ++ [Call "pioneer-study" (VObj ∅) options])
             (console w ++ [line]))
    ∧ sendDeletionPing (VStr p) studyAddonId w
      = (Normal (),
         World (calls w ++ [Call "pioneer-study" (VObj ∅) options'])
               (console w ++ [line']))
    ∧ field "studyName" options = Some studyAddonId
    ∧ field "studyName" options' = Some studyAddonId
    ∧ conforms options = false
    ∧ conforms options' = false.
Proof.
  intros Hp%valid_id_string Hs%is_undefined_false Ht.
  assert (∀ options, field "studyName" options = Some studyAddonId →
                     conforms options = false) as Hbreak.
  { intros options Hname. destruct (conforms options) eqn:Hc; [|done].
    destruct (conforms_declared options "studyName" "string" Hc)
      as (v & Hv & [Htype _]%andb_true_iff); [left|].
    rewrite Hname in Hv. injection Hv as <-.
    by apply bool_decide_eq_true in Htype. }
  unfold DataCollection.sendEnrollmentPing, DataCollection.sendDeletionPing,
    DataCollection._sendEmptyPing.
  rewrite Hs. cbn [negb].
  destruct (is_string "pioneer-core" studyAddonId);
    (eexists _, _, _, _; split; [by apply sendPing_valid|];
     split; [by apply sendPing_valid|];
     split; [reflexivity|]; split; [reflexivity|];
     split; by apply Hbreak).
Qed.

End Properties.

(** ** The class at work on concrete pings *)

(** [sendEnrollmentPing("R1")]: the enrollment to the program. *)
Example enrollment_in_the_program :
  sendEnrollmentPing accepting (VStr "R1") VUndefined quiet
  = (let options :=
       object [ ("studyName", VStr "pioneer-core");
                ("addPioneerId", VBool true);
                ("overridePioneerId", VStr "R1");
                ("encryptionKeyId", VStr "core");
                ("publicKey", CORE_ENCRYPTION_JWK);
                ("schemaName", VStr "pioneer-enrollment");
                ("schemaVersion", VNum "1");
                ("schemaNamespace", VStr "pioneer-core") ] in
     (Normal (),
      World [Call "pioneer-study" (VObj ∅) options]
            [debug_line options (VObj ∅)])).
Proof. vm_compute. reflexivity. Qed.

(** [sendDemographicSurveyPing("R1", {age: "25-34", race: ["white",
    "asian"]})]: the payload is [{age: {"25-34": true}, races: {white:
    true, asian: true}}]. *)
Example survey_payload :
  processed (object [ ("age", VStr "25-34");
                      ("race", VArr [VStr "white"; VStr "asian"]) ])
  = Some {[ "age" := VObj {[ "25-34" := VBool true ]};
            "races" := VObj {[ "white" := VBool true;
                               "asian" := VBool true ]} ]}.
Proof. vm_compute. reflexivity. Qed.

(** [sendPing("", ...)]: the error, and no call. *)
Example empty_id_is_refused :
  sendPing accepting (VStr "") (VStr "pioneer-enrollment") (VObj ∅)
    (VStr "pioneer-core") (VStr "core") CORE_ENCRYPTION_JWK quiet
  = (Throw (InvalidRallyId (VStr "")), quiet).
Proof. reflexivity. Qed.

(** A survey that is not an object raises a [TypeError] before anything
    is sent. *)
Example survey_of_the_wrong_type :
  sendDemographicSurveyPing accepting (VStr "R1") VUndefined quiet
  = (Throw TypeError, quiet).
Proof. reflexivity. Qed.

(** C1, as stated, fails: the options that [sendPing] hands to the host
    have no field [addParticipantId] and no field
    [overrideParticipantId]; the id travels as [addPioneerId] and
    [overridePioneerId]. *)
Lemma sendPing_has_no_addParticipantId :
  ∃ options line,
    sendPing accepting (VStr "R1") (VStr "pioneer-enrollment") (VObj ∅)
      (VStr "pioneer-core") (VStr "core") CORE_ENCRYPTION_JWK quiet
    = (Normal (), World [Call "pioneer-study" (VObj ∅) options] [line])
    ∧ field "addParticipantId" options = None
    ∧ field "overrideParticipantId" options = None
    ∧ field "addParticipantId" options ≠ Some (VBool true)
    ∧ field "overrideParticipantId" options ≠ Some (VStr "R1").
Proof.
  eexists _, _. split; [by apply (sendPing_valid accepting _ _ _ _ _ _ quiet)|].
  repeat split; try (vm_compute; reflexivity); vm_compute; discriminate.
Qed.

Lemma sendPing_builds_options_witness :
  ∃ options line,
    sendPing accepting (VStr "R1") (VStr "pioneer-enrollment") (VObj ∅)
      (VStr "pioneer-core") (VStr "core") CORE_ENCRYPTION_JWK quiet
    = (Normal (), World [Call "pioneer-study" (VObj ∅) options] [line])
    ∧ field "schemaName" options = Some (VStr "pioneer-enrollment")
    ∧ field "schemaNamespace" options = Some (VStr "pioneer-core")
    ∧ field "schemaVersion" options = Some (VNum "1")
    ∧ field "addPioneerId" options = Some (VBool true)
    ∧ field "overridePioneerId" options = Some (VStr "R1").
Proof.
  apply (sendPing_builds_options accepting "R1" (VStr "pioneer-enrollment")
           (VObj ∅) (VStr "pioneer-core") (VStr "core") CORE_ENCRYPTION_JWK
           quiet).
  discriminate.
Defined.

Lemma sendPing_swallows_failure_witness :
  ∃ options line,
    sendPing rejecting (VStr "R1") (VStr "pioneer-enrollment") (VObj ∅)
      (VStr "pioneer-core") (VStr "core") CORE_ENCRYPTION_JWK quiet
    = (Normal (), World [Call "pioneer-study" (VObj ∅) options] [line])
    ∧ ∀ error,
        rejecting "pioneer-study" (VObj ∅) options = Rejected error →
        line = error_line error.
Proof.
  apply (sendPing_swallows_failure rejecting (VStr "R1")
           (VStr "pioneer-enrollment") (VObj ∅) (VStr "pioneer-core")
           (VStr "core") CORE_ENCRYPTION_JWK quiet).
  reflexivity.
Defined.

(** The rejection of the host ends up on the console, and nowhere else. *)
Example rejection_is_logged :
  ∃ options,
    sendPing rejecting (VStr "R1") (VStr "pioneer-enrollment") (VObj ∅)
      (VStr "pioneer-core") (VStr "core") CORE_ENCRYPTION_JWK quiet
    = (Normal (),
       World [Call "pioneer-study" (VObj ∅) options]
             [error_line "NetworkError"]).
Proof. eexists. by apply (sendPing_valid rejecting _ _ _ _ _ _ quiet). Qed.

(** C4, as stated, fails at the study id ["pioneer-core"]: it is a
    non-empty study id, and the ping it routes carries the key id
    ["core"], not ["discarded"]. *)
Lemma sendEnrollmentPing_core_as_study :
  ∃ options line,
    sendEnrollmentPing accepting (VStr "R1") (VStr "pioneer-core") quiet
    = (Normal (), World [Call "pioneer-study" (VObj ∅) options] [line])
    ∧ field "schemaNamespace" options = Some (VStr "pioneer-core")
    ∧ field "encryptionKeyId" options = Some (VStr "core")
    ∧ field "encryptionKeyId" options ≠ Some (VStr "discarded").
Proof.
  eexists _, _. split.
  - exact (sendPing_valid accepting (VStr "R1") (VStr "pioneer-enrollment")
             (VObj ∅) (VStr "pioneer-core") (VStr "core")
             CORE_ENCRYPTION_JWK quiet eq_refl).
  - repeat split; try (vm_compute; reflexivity). vm_compute. discriminate.
Qed.

Lemma sendEnrollmentPing_routes_witness :
  (∃ options line,
     sendEnrollmentPing accepting (VStr "R1") VUndefined quiet
     = (Normal (), World [Call "pioneer-study" (VObj ∅) options] [line])
     ∧ field "schemaName" options = Some (VStr "pioneer-enrollment")
     ∧ field "schemaNamespace" options = Some (VStr "pioneer-core")
     ∧ field "encryptionKeyId" options = Some (VStr "core"))
  ∧ (∃ options line,
       sendEnrollmentPing accepting (VStr "R1") (VStr "study@mozilla.org")
         quiet
       = (Normal (), World [Call "pioneer-study" (VObj ∅) options] [line])
       ∧ field "schemaName" options = Some (VStr "pioneer-enrollment")
       ∧ field "schemaNamespace" options = Some (VStr "study@mozilla.org")
       ∧ field "encryptionKeyId" options = Some (VStr "discarded")).
Proof.
  destruct (sendEnrollmentPing_routes accepting "R1" quiet) as [Hcore Hstudy].
  - discriminate.
  - split; [exact Hcore|].
    apply (Hstudy "study@mozilla.org"); discriminate.
Defined.

(** C10, as stated, fails at the study id ["pioneer-core"]: the value is
    given, it is the namespace as it stands, and the key id it selects
    is ["core"], not ["discarded"]. *)
Lemma sendEnrollmentPing_core_verbatim :
  ∃ options line,
    sendEnrollmentPing rejecting (VStr "R2") (VStr "pioneer-core") quiet
    = (Normal (), World [Call "pioneer-study" (VObj ∅) options] [line])
    ∧ VStr "pioneer-core" ≠ VUndefined
    ∧ field "schemaNamespace" options = Some (VStr "pioneer-core")
    ∧ field "encryptionKeyId" options = Some (VStr "core")
    ∧ field "encryptionKeyId" options ≠ Some (VStr "discarded").
Proof.
  eexists _, _. split.
  - exact (sendPing_valid rejecting (VStr "R2") (VStr "pioneer-enrollment")
             (VObj ∅) (VStr "pioneer-core") (VStr "core")
             CORE_ENCRYPTION_JWK quiet eq_refl).
  - repeat split; try (vm_compute; reflexivity); discriminate.
Qed.

Lemma sendEnrollmentPing_default_namespace_witness :
  (∃ options line,
     sendEnrollmentPing accepting (VStr "R1") VNull quiet
     = (Normal (), World [Call "pioneer-study" (VObj ∅) options] [line])
     ∧ field "schemaNamespace" options = Some VNull
     ∧ field "encryptionKeyId" options = Some (VStr "discarded"))
  ∧ (∃ options line,
       sendEnrollmentPing accepting (VStr "R1") (VStr "") quiet
       = (Normal (), World [Call "pioneer-study" (VObj ∅) options] [line])
       ∧ field "schemaNamespace" options = Some (VStr "")
       ∧ field "encryptionKeyId" options = Some (VStr "discarded"))
  ∧ (∃ options line,
       sendEnrollmentPing accepting (VStr "R1") (VStr "pioneer-core") quiet
       = (Normal (), World [Call "pioneer-study" (VObj ∅) options] [line])
       ∧ field "schemaNamespace" options = Some (VStr "pioneer-core")
       ∧ field "encryptionKeyId" options = Some (VStr "core")).
Proof.
  split; [|split].
  - destruct (sendEnrollmentPing_default_namespace accepting "R1" VNull quiet)
      as (options & line & Hrun & _ & Hgiven); [discriminate|].
    exists options, line. split; [exact Hrun|].
    destruct Hgiven as (Hns & Hid & _); [discriminate|].
    split; [exact Hns | apply Hid; discriminate].
  - destruct (sendEnrollmentPing_default_namespace accepting "R1" (VStr "")
                quiet)
      as (options & line & Hrun & _ & Hgiven); [discriminate|].
    exists options, line. split; [exact Hrun|].
    destruct Hgiven as (Hns & Hid & _); [discriminate|].
    split; [exact Hns | apply Hid; discriminate].
  - destruct (sendEnrollmentPing_default_namespace accepting "R1"
                (VStr "pioneer-core") quiet)
      as (options & line & Hrun & _ & Hgiven); [discriminate|].
    exists options, line. split; [exact Hrun|].
    destruct Hgiven as (Hns & _ & Hcore); [discriminate|].
    split; [exact Hns | apply Hcore; reflexivity].
Defined.

Lemma sendDeletionPing_requires_study_witness :
  sendDeletionPing accepting (VStr "R1") VUndefined quiet
  = (Throw StudyIdRequired, quiet)
  ∧ ∃ options line,
      sendDeletionPing accepting (VStr "R1") (VStr "study@mozilla.org") quiet
      = (Normal (), World [Call "pioneer-study" (VObj ∅) options] [line])
      ∧ field "schemaName" options = Some (VStr "deletion-request")
      ∧ field "schemaNamespace" options = Some (VStr "study@mozilla.org").
Proof.
  destruct (sendDeletionPing_requires_study accepting) as [Hnone Hstudy].
  split.
  - apply (Hnone (VStr "R1") quiet).
  - apply (Hstudy "R1" (VStr "study@mozilla.org") quiet); discriminate.
Defined.

Lemma key_follows_namespace_witness :
  ∃ options line,
    _sendEmptyPing accepting (VStr "R1") (VStr "deletion-request")
      (VStr "study@mozilla.org") quiet
    = (Normal (), World [Call "pioneer-study" (VObj ∅) options] [line])
    ∧ field "encryptionKeyId" options = Some (VStr "discarded")
    ∧ field "publicKey" options = Some DISCARDED_JWK.
Proof.
  destruct (key_follows_namespace accepting "R1" (VStr "deletion-request")
              (VStr "study@mozilla.org") quiet)
    as (options & line & Hrun & _ & Hother & _); [discriminate|].
  exists options, line. split; [exact Hrun|].
  apply Hother. discriminate.
Defined.

Lemma perform_keeps_one_namespace_witness :
  Forall one_namespace
    (calls
       (perform rejecting
          (DeletionPing (VStr "R1") (VStr "study@mozilla.org"))
          (perform accepting (EnrollmentPing (VStr "R1") VUndefined)
             quiet).2).2).
Proof.
  apply (perform_keeps_one_namespace rejecting).
  apply (perform_keeps_one_namespace accepting).
  constructor.
Defined.

Lemma sendDemographicSurveyPing_shapes_witness :
  ∃ answers payload options line,
    object [ ("age", VStr "25-34");
             ("race", VArr [VStr "white"; VStr "asian"]);
             ("comment", VStr "none") ]
    = VObj answers
    ∧ sendDemographicSurveyPing accepting (VStr "R1")
        (object [ ("age", VStr "25-34");
                  ("race", VArr [VStr "white"; VStr "asian"]);
                  ("comment", VStr "none") ]) quiet
      = (Normal (),
         World [Call "pioneer-study" (VObj payload) options] [line])
    ∧ field "schemaName" options = Some (VStr "demographic-survey")
    ∧ field "schemaNamespace" options = Some (VStr "pioneer-core")
    ∧ field "encryptionKeyId" options = Some (VStr "core")
    ∧ field "publicKey" options = Some CORE_ENCRYPTION_JWK
    ∧ renamed answers payload "age" "age"
    ∧ renamed answers payload "gender" "gender"
    ∧ renamed answers payload "hispanicLatinoSpanishOrigin" "origin"
    ∧ renamed answers payload "school" "education"
    ∧ renamed answers payload "income" "income"
    ∧ renamed answers payload "zipCode" "zipCode"
    ∧ match answers !! "race" with
      | Some race =>
          ∃ categories, race = VArr (VStr <$> categories)
                        ∧ payload !! "races" = Some (VObj (races_of categories))
      | None => payload !! "races" = None
      end
    ∧ (∀ k, k ∉ ["age"; "gender"; "origin"; "education"; "income";
                 "zipCode"; "races"] →
            payload !! k = None).
Proof.
  apply (sendDemographicSurveyPing_shapes accepting "R1"
           (object [ ("age", VStr "25-34");
                     ("race", VArr [VStr "white"; VStr "asian"]);
                     ("comment", VStr "none") ]) quiet).
  - discriminate.
  - vm_compute. reflexivity.
Defined.

(** C7, at the category ["__proto__"].  The survey [{race:
    ["__proto__"]}] is well typed, and its category is selected, yet the
    races map of the payload is empty: the assignment
    [a["__proto__"] = true] of the reducer runs the setter inherited from
    [Object.prototype], which ignores a boolean, instead of defining a
    key. *)
Theorem proto_category_is_dropped :
  demographic_answer (object [ ("race", VArr [VStr "__proto__"]) ]) = true
  ∧ processed (object [ ("race", VArr [VStr "__proto__"]) ])
    = Some {[ "races" := VObj ∅ ]}
  ∧ races_of ["__proto__"] !! "__proto__" = None
  ∧ races_of ["white"; "__proto__"] = races_of ["white"]
  ∧ ∃ options line,
      sendDemographicSurveyPing accepting (VStr "R1")
        (object [ ("race", VArr [VStr "__proto__"]) ]) quiet
      = (Normal (),
         World [Call "pioneer-study" (object [ ("races", VObj ∅) ]) options]
               [line]).
Proof.
  split; [vm_compute; reflexivity|].
  split; [vm_compute; reflexivity|].
  split; [vm_compute; reflexivity|].
  split; [vm_compute; reflexivity|].
  eexists _, _.
  exact (sendPing_valid accepting (VStr "R1") (VStr "demographic-survey")
           (object [ ("races", VObj ∅) ]) (VStr "pioneer-core")
           (VStr CORE_ENCRYPTION_KEY_ID) CORE_ENCRYPTION_JWK quiet eq_refl).
Qed.

Lemma race_shaping_same_set_witness :
  ∃ races,
    reduce mark_race (VStr <$> ["a"; "b"]) ∅ = Some races
    ∧ reduce mark_race (VStr <$> ["b"; "a"; "a"]) ∅ = Some races
    ∧ (∀ c, c ∈ ["a"; "b"] → c ≠ "__proto__" → races !! c = Some (VBool true))
    ∧ (∀ k, k ∉ ["a"; "b"] → races !! k = None).
Proof.
  apply (race_shaping_same_set ["a"; "b"] ["b"; "a"; "a"]).
  intros c. rewrite !elem_of_cons, elem_of_nil. tauto.
Defined.


(** ** Two hosts *)

Lemma sendPing_ignores_host
    (host host' : string → value → value → settlement)
    (rallyId payloadType payload namespace keyId key : value) (w : world) :
  (sendPing host rallyId payloadType payload namespace keyId key w).1
  = (sendPing host' rallyId payloadType payload namespace keyId key w).1
  ∧ calls (sendPing host rallyId payloadType payload namespace keyId key w).2
    = calls (sendPing host' rallyId payloadType payload namespace keyId key
               w).2.
Proof.
  destruct (valid_id rallyId) eqn:Hv.
  - by rewrite !sendPing_valid.
  - by rewrite !sendPing_invalid.
Qed.

(** What the host answers changes neither what an operation returns to
    its caller nor the calls it makes: whether the promise is fulfilled
    or rejected shows on the console only. *)
Theorem host_answer_is_ignored
    (host host' : string → value → value → settlement)
    (r : request) (w : world) :
  (perform host r w).1 = (perform host' r w).1
  ∧ calls (perform host r w).2 = calls (perform host' r w).2.
Proof.
  destruct r as [rallyId payloadType payload namespace keyId key
                |rallyId payloadType namespace
                |rallyId studyAddonId
                |rallyId studyAddonId
                |rallyId data]; simpl.
  - apply sendPing_ignores_host.
  - unfold _sendEmptyPing.
    destruct (is_string "pioneer-core" namespace);
      apply sendPing_ignores_host.
  - unfold sendEnrollmentPing, _sendEmptyPing.
    destruct (is_undefined studyAddonId); simpl;
      [|destruct (is_string "pioneer-core" studyAddonId)];
      apply sendPing_ignores_host.
  - unfold sendDeletionPing, _sendEmptyPing.
    destruct (is_undefined studyAddonId); [done|].
    destruct (is_string "pioneer-core" studyAddonId);
      apply sendPing_ignores_host.
  - unfold sendDemographicSurveyPing.
    destruct (processed data) as [payload|]; [|done].
    apply sendPing_ignores_host.
Qed.

(** ** The properties above, at work *)

Lemma processed_ignores_other_properties_witness :
  processed (VObj (<["comment" := VStr "none"]>
                     {[ "age" := VStr "25-34" ]}))
  = processed (VObj {[ "age" := VStr "25-34" ]})
  ∧ processed (VObj (delete "comment" {[ "age" := VStr "25-34" ]}))
    = processed (VObj {[ "age" := VStr "25-34" ]}).
Proof.
  apply (processed_ignores_other_properties {[ "age" := VStr "25-34" ]}
           "comment" (VStr "none")).
  apply (proj1 (bool_decide_eq_false _)). vm_compute. reflexivity.
Defined.

Lemma payload_is_made_of_flags_witness :
  "races" ∈ payload_names
  ∧ flags (VObj {[ "white" := VBool true; "asian" := VBool true ]}).
Proof.
  refine (payload_is_made_of_flags
            (object [ ("age", VStr "25-34");
                      ("race", VArr [VStr "white"; VStr "asian"]) ])
            {[ "age" := VObj {[ "25-34" := VBool true ]};
               "races" := VObj {[ "white" := VBool true;
                                  "asian" := VBool true ]} ]}
            _ "races" _ _).
  - vm_compute. reflexivity.
  - vm_compute. reflexivity.
Defined.

Lemma perform_keeps_stamped_witness :
  Forall stamped
    (calls
       (perform rejecting
          (DemographicSurveyPing (VStr "R1")
             (object [ ("age", VStr "25-34") ]))
          (perform accepting (EnrollmentPing (VStr "R1") VUndefined)
             quiet).2).2).
Proof.
  apply (perform_keeps_stamped rejecting).
  apply (perform_keeps_stamped accepting).
  constructor.
Defined.

Lemma perform_keeps_keyed_witness :
  Forall keyed_by_namespace
    (calls
       (perform accepting
          (DeletionPing (VStr "R1") (VStr "study@mozilla.org"))
          (perform accepting
             (DemographicSurveyPing (VStr "R1")
                (object [ ("age", VStr "25-34") ]))
             quiet).2).2).
Proof.
  apply (perform_keeps_keyed accepting); [reflexivity|].
  apply (perform_keeps_keyed accepting); [reflexivity|].
  constructor.
Defined.

Lemma invalid_id_is_refused_witness :
  sendEnrollmentPing accepting VNull (VStr "study@mozilla.org") quiet
  = (Throw (InvalidRallyId VNull), quiet)
  ∧ sendDeletionPing accepting VNull VUndefined quiet
    = (Throw StudyIdRequired, quiet)
  ∧ sendDeletionPing accepting VNull (VStr "study@mozilla.org") quiet
    = (Throw (InvalidRallyId VNull), quiet)
  ∧ sendDemographicSurveyPing accepting VNull (VStr "25-34") quiet
    = (Throw TypeError, quiet)
  ∧ sendDemographicSurveyPing accepting VNull
      (object [ ("age", VStr "25-34") ]) quiet
    = (Throw (InvalidRallyId VNull), quiet)
  ∧ sendEnrollmentPing accepting (object [ ("toString", VNum "1") ])
      VUndefined quiet
    = (Throw TypeError, quiet).
Proof.
  destruct (invalid_id_is_refused accepting VNull quiet)
    as (_ & Henrol & Hdelete & Hsurvey & _); [reflexivity|].
  destruct (invalid_id_is_refused accepting
              (object [ ("toString", VNum "1") ]) quiet)
    as (_ & Hunrendered & _); [reflexivity|].
  split; [apply Henrol|].
  split; [apply (Hdelete VUndefined)|].
  split; [apply (Hdelete (VStr "study@mozilla.org"))|].
  split; [apply (Hsurvey (VStr "25-34"))|].
  split; [apply (Hsurvey (object [ ("age", VStr "25-34") ]))|].
  apply (Hunrendered VUndefined).
Defined.

Lemma survey_without_answers_witness :
  ∃ options line,
    sendDemographicSurveyPing accepting (VStr "R1")
      (VArr [VStr "25-34"]) quiet
    = (Normal (), World [Call "pioneer-study" (VObj ∅) options] [line])
    ∧ field "schemaNamespace" options = Some (VStr "pioneer-core").
Proof.
  apply (survey_without_answers accepting "R1" (VArr [VStr "25-34"]) quiet).
  - discriminate.
  - left. by exists [VStr "25-34"].
Defined.

Lemma deletion_mirrors_enrollment_witness :
  ∃ options line line',
    sendEnrollmentPing accepting (VStr "R1") (VStr "study@mozilla.org") quiet
    = (Normal (),
       World [Call "pioneer-study" (VObj ∅) (VObj options)] [line])
    ∧ sendDeletionPing accepting (VStr "R1") (VStr "study@mozilla.org") quiet
      = (Normal (),
         World [Call "pioneer-study" (VObj ∅)
                  (VObj (<["schemaName" := VStr "deletion-request"]>
                           options))]
               [line'])
    ∧ options !! "schemaName" = Some (VStr "pioneer-enrollment").
Proof.
  apply (deletion_mirrors_enrollment accepting "R1"
           (VStr "study@mozilla.org") quiet); discriminate.
Defined.

Lemma perform_keeps_conforming_witness :
  Forall (λ c, conforms (ping_options c) = true)
    (calls
       (perform rejecting
          (DeletionPing (VStr "R1") (VStr "study@mozilla.org"))
          (perform accepting (EnrollmentPing (VStr "R1") VUndefined)
             quiet).2).2).
Proof.
  apply (perform_keeps_conforming rejecting); [reflexivity|].
  apply (perform_keeps_conforming accepting); [reflexivity|].
  constructor.
Defined.

Lemma untyped_study_id_breaks_schema_witness :
  ∃ options options' line line',
    sendEnrollmentPing accepting (VStr "R1") VNull quiet
    = (Normal (), World [Call "pioneer-study" (VObj ∅) options] [line])
    ∧ sendDeletionPing accepting (VStr "R1") VNull quiet
      = (Normal (), World [Call "pioneer-study" (VObj ∅) options'] [line'])
    ∧ field "studyName" options = Some VNull
    ∧ field "studyName" options' = Some VNull
    ∧ conforms options = false
    ∧ conforms options' = false.
Proof.
  apply (untyped_study_id_breaks_schema accepting "R1" VNull quiet);
    discriminate.
Defined.
